(** * Geometric support functions of the spatial (R-tree) index

    A shallow embedding of [sql/gis/rtree_support.cc]: the rectangle
    predicates, the merge and area functions, the extraction of a bounding
    rectangle from a stored record, and the two metrics that work on raw
    coordinate keys.

    Doubles are IEEE-754 binary64 values, modelled by [spec_float] with
    precision 53 and maximal exponent 1024, so every arithmetic operation
    of the source rounds here as it does there. *)

From Stdlib Require Import ZArith List Bool Lia SpecFloat.
From Stdlib.Strings Require Import Byte.
From Equations Require Import Equations.
Import ListNotations.

Local Open Scope Z_scope.

(** ** Doubles *)

Module Dbl.

Definition prec : Z := 53.
Definition emax : Z := 1024.

Definition double : Type := spec_float.

Definition add (x y : double) : double := SFadd prec emax x y.
Definition sub (x y : double) : double := SFsub prec emax x y.
Definition mul (x y : double) : double := SFmul prec emax x y.

(** The comparison operators of C++ on doubles; each is false as soon as
    one operand is NaN, except [!=]. *)
Definition eqb (x y : double) : bool := SFeqb x y.
Definition ltb (x y : double) : bool := SFltb x y.
Definition leb (x y : double) : bool := SFleb x y.
Definition gtb (x y : double) : bool :=
  match SFcompare x y with Some Gt => true | _ => false end.
Definition geb (x y : double) : bool :=
  match SFcompare x y with Some (Gt | Eq) => true | _ => false end.
Definition neb (x y : double) : bool := negb (eqb x y).

(** [std::min(a, b)] is [(b < a) ? b : a]; [std::max(a, b)] is
    [(a < b) ? b : a]. *)
Definition std_min (a b : double) : double := if ltb b a then b else a.
Definition std_max (a b : double) : double := if ltb a b then b else a.

Definition isnan (x : double) : bool :=
  match x with S754_nan => true | _ => false end.
Definition isfinite (x : double) : bool :=
  match x with S754_zero _ | S754_finite _ _ _ => true | _ => false end.

(** The value of a 64-bit pattern read as a binary64: sign in bit 63,
    biased exponent in bits 52..62, fraction in bits 0..51. *)
Definition of_bits (w : Z) : double :=
  let s := Z.testbit w 63 in
  let e := Z.land (Z.shiftr w 52) 2047 in
  let f := Z.land w (Z.ones 52) in
  if e =? 0 then
    match f with
    | Zpos m => S754_finite s m (-1074)
    | _ => S754_zero s
    end
  else if e =? 2047 then
    if f =? 0 then S754_infinity s else S754_nan
  else
    match f + 2 ^ 52 with
    | Zpos m => S754_finite s m (e - 1075)
    | _ => S754_nan
    end.

(** The 64-bit pattern of a double (NaN gets the default quiet pattern).
    Used to lay keys out in memory. *)
Definition to_bits (x : double) : Z :=
  let sgn (s : bool) := if s then 2 ^ 63 else 0 in
  match x with
  | S754_zero s => sgn s
  | S754_infinity s => sgn s + Z.shiftl 2047 52
  | S754_nan => Z.shiftl 2047 52 + 2 ^ 51
  | S754_finite s m e =>
      if Z.pos m <? 2 ^ 52 then sgn s + Z.pos m
      else sgn s + Z.shiftl (e + 1075) 52 + (Z.pos m - 2 ^ 52)
  end.

Definition zero : double := S754_zero false.
Definition one : double := of_bits 0x3FF0000000000000.
(** [0.001] *)
Definition milli : double := of_bits 0x3F50624DD2F1A9FC.
(** [std::numeric_limits<double>::max()] and [lowest()] *)
Definition max_double : double := of_bits 0x7FEFFFFFFFFFFFFF.
Definition lowest_double : double := of_bits 0xFFEFFFFFFFFFFFFF.
Definition nan : double := S754_nan.

(** Small integers as doubles, for examples. *)
Definition of_Z (z : Z) : double :=
  match z with
  | Z0 => zero
  | Zpos p => binary_normalize prec emax (Zpos p) 0 false
  | Zneg p => binary_normalize prec emax (Zneg p) 0 true
  end.

End Dbl.

Export Dbl(double).

Declare Scope dbl_scope.
Delimit Scope dbl_scope with dbl.
Infix "+" := Dbl.add : dbl_scope.
Infix "-" := Dbl.sub : dbl_scope.
Infix "*" := Dbl.mul : dbl_scope.
Infix "==" := Dbl.eqb (at level 70, no associativity) : dbl_scope.
Infix "!=" := Dbl.neb (at level 70, no associativity) : dbl_scope.
Infix "<" := Dbl.ltb : dbl_scope.
Infix "<=" := Dbl.leb : dbl_scope.
Infix ">" := Dbl.gtb : dbl_scope.
Infix ">=" := Dbl.geb : dbl_scope.

Local Open Scope dbl_scope.

(** ** Outcomes of a call

    A call returns, or stops on a failed [DBUG_ASSERT] (debug builds only),
    or reads memory outside the buffer it was given. *)

Inductive outcome (A : Type) : Type :=
| Returns (a : A)
| AssertionFailure
| OutOfBounds.

Arguments Returns {A} a.
Arguments AssertionFailure {A}.
Arguments OutOfBounds {A}.

Definition bind {A B : Type} (m : outcome A) (k : A -> outcome B) : outcome B :=
  match m with
  | Returns a => k a
  | AssertionFailure => AssertionFailure
  | OutOfBounds => OutOfBounds
  end.

Notation "x <- m ;; k" := (bind m (fun x => k))
  (at level 61, m at next level, right associativity).
Notation "m ;;; k" := (bind m (fun _ => k))
  (at level 61, right associativity).

(** [DBUG_ASSERT] is compiled out of release builds. *)
Inductive build : Type := Debug | Release.

Definition DBUG_ASSERT (bld : build) (cond : bool) : outcome unit :=
  match bld with
  | Release => Returns tt
  | Debug => if cond then Returns tt else AssertionFailure
  end.

(** ** Memory reads *)

Definition uchar : Type := Byte.byte.

Definition uchar_val (b : uchar) : Z := Z.of_N (Byte.to_N b).

(** The integer stored least significant byte first. *)
Fixpoint le_combine (bs : list uchar) : Z :=
  match bs with
  | [] => 0
  | b :: rest => uchar_val b + 256 * le_combine rest
  end.

(** [p + n] for a pointer [p] into a buffer. *)
Definition advance (n : nat) (p : list uchar) : list uchar := skipn n p.

(** [doubleget] / [float8get]: the double stored in the eight bytes at [p],
    least significant byte first. *)
Definition doubleget (p : list uchar) : outcome double :=
  if (length p <? 8)%nat then OutOfBounds
  else Returns (Dbl.of_bits (le_combine (firstn 8 p))).

(** [uint4korr]: the unsigned 32-bit integer at [p]. *)
Definition uint4korr (p : list uchar) : outcome Z :=
  if (length p <? 4)%nat then OutOfBounds
  else Returns (le_combine (firstn 4 p)).

(** ** Reference systems

    Modelled from the spec: the class [dd::Spatial_reference_system] is
    declared outside this file. It identifies whether coordinates are planar
    or ellipsoidal, carries the two axis lengths and converts angles between
    native units and radians. *)

Inductive Srs_kind : Type := PROJECTED | GEOGRAPHIC.

Record Spatial_reference_system : Type := {
  srs_id : Z;
  srs_kind : Srs_kind;
  semi_major_axis : double;
  semi_minor_axis : double;
  to_radians : double -> double;
  from_radians : double -> double
}.

Definition is_cartesian (s : Spatial_reference_system) : bool :=
  match srs_kind s with PROJECTED => true | GEOGRAPHIC => false end.

Definition is_geographic (s : Spatial_reference_system) : bool :=
  match srs_kind s with PROJECTED => false | GEOGRAPHIC => true end.

(** A [const dd::Spatial_reference_system*]; [None] is [nullptr]. *)
Definition srs_ptr : Type := option Spatial_reference_system.

(** [srs == nullptr || srs->is_cartesian()] *)
Definition null_or_cartesian (srs : srs_ptr) : bool :=
  match srs with
  | None => true
  | Some s => is_cartesian s
  end.

(** ** Raw-key metric engine *)

Module RawKey.

(** One dimension of the two keys: [amin], [amax], [bmin], [bmax]. *)
Record dim : Type := Dim { amin : double; amax : double; bmin : double; bmax : double }.

(** The four [doubleget] calls at the head of each iteration. *)
Definition read_dim (mbr_a mbr_b : list uchar) : outcome dim :=
  amin <- doubleget mbr_a ;;
  bmin <- doubleget mbr_b ;;
  amax <- doubleget (advance 8 mbr_a) ;;
  bmax <- doubleget (advance 8 mbr_b) ;;
  Returns (Dim amin amax bmin bmax).

(** [keyseg_len = 2 * sizeof(double)] *)
Definition keyseg_len : Z := 16.

(** The locals that live across iterations of [rtree_area_increase]. *)
Record inc_state : Type :=
  IncState { a_area : double; loc_ab_area : double; data_round : double }.

Definition line_mbr_weights : double := Dbl.milli.

(** The body of the loop of [rtree_area_increase], after the reads. *)
Definition increase_body (st : inc_state) (d : dim) : inc_state :=
  let area := amax d - amin d in
  let a_area' :=
    if area == Dbl.zero then a_area st * line_mbr_weights else a_area st * area in
  let area := Dbl.std_max (amax d) (bmax d) - Dbl.std_min (amin d) (bmin d) in
  let loc_ab_area' :=
    if area == Dbl.zero then loc_ab_area st * line_mbr_weights
    else loc_ab_area st * area in
  let data_round' :=
    if loc_ab_area' == a_area' then
      if (bmin d < amin d) || (bmax d > amax d) then
        data_round st *
          (Dbl.std_max (amax d) (bmax d) - amax d
           + (amin d - Dbl.std_min (amin d) (bmin d)))
      else data_round st * area
    else data_round st in
  IncState a_area' loc_ab_area' data_round'.

(** [for (key_len = mbr_len; key_len > 0; key_len -= keyseg_len)] *)
Equations? increase_loop (key_len : Z) (mbr_a mbr_b : list uchar)
    (st : inc_state) : outcome inc_state by wf (Z.to_nat key_len) lt :=
  increase_loop key_len mbr_a mbr_b st with Z_lt_dec 0 key_len => {
    | right _ := Returns st
    | left _ with read_dim mbr_a mbr_b => {
        | Returns d :=
            increase_loop (key_len - keyseg_len)
              (advance 16 mbr_a) (advance 16 mbr_b) (increase_body st d)
        | AssertionFailure := AssertionFailure
        | OutOfBounds := OutOfBounds } }.
Proof. unfold keyseg_len. lia. Qed.

(** Returns the pair [(delta, *ab_area)]. The reference system is not
    used. *)
Definition rtree_area_increase (srs : srs_ptr) (mbr_a mbr_b : list uchar)
    (mbr_len : Z) : outcome (double * double) :=
  st <- increase_loop mbr_len mbr_a mbr_b (IncState Dbl.one Dbl.one Dbl.one) ;;
  if (loc_ab_area st == a_area st) && (data_round st != Dbl.one)
  then Returns (data_round st, loc_ab_area st)
  else Returns (loc_ab_area st - a_area st, loc_ab_area st).

(** The loop of [rtree_area_overlapping]; [inl] is the early
    [return (0)], [inr] the running product at loop exit. *)
Equations? overlap_loop (key_len : Z) (mbr_a mbr_b : list uchar)
    (area : double) : outcome (double + double) by wf (Z.to_nat key_len) lt :=
  overlap_loop key_len mbr_a mbr_b area with Z_lt_dec 0 key_len => {
    | right _ := Returns (inr area)
    | left _ with read_dim mbr_a mbr_b => {
        | Returns d with
            Dbl.gtb (Dbl.std_max (amin d) (bmin d)) (Dbl.std_min (amax d) (bmax d)) => {
            | true := Returns (inl Dbl.zero)
            | false :=
                overlap_loop (key_len - keyseg_len)
                  (advance 16 mbr_a) (advance 16 mbr_b)
                  (area * (Dbl.std_min (amax d) (bmax d)
                           - Dbl.std_max (amin d) (bmin d))) }
        | AssertionFailure := AssertionFailure
        | OutOfBounds := OutOfBounds } }.
Proof. unfold keyseg_len. lia. Qed.

Definition rtree_area_overlapping (srs : srs_ptr) (mbr_a mbr_b : list uchar)
    (mbr_len : Z) : outcome double :=
  r <- overlap_loop mbr_len mbr_a mbr_b Dbl.one ;;
  match r with
  | inl z => Returns z
  | inr area => Returns area
  end.

(** *** Laying keys out in memory *)

Definition byte_of_Z (z : Z) : uchar :=
  match Byte.of_N (Z.to_N (z mod 256)) with
  | Some b => b
  | None => Byte.x00
  end.

Fixpoint le_split (n : nat) (z : Z) : list uchar :=
  match n with
  | O => []
  | S n' => byte_of_Z z :: le_split n' (z / 256)
  end.

(** [doubleput] / [float8store]. *)
Definition doubleput (x : double) : list uchar := le_split 8 (Dbl.to_bits x).

(** The key holding the given [(min, max)] pairs. *)
Fixpoint encode_key (dims : list (double * double)) : list uchar :=
  match dims with
  | [] => []
  | (lo, hi) :: rest => doubleput lo ++ doubleput hi ++ encode_key rest
  end.

End RawKey.


(** ** Rectangles *)

(** [rtr_mbr_t] *)
Record rtr_mbr_t : Type := Mbr {
  xmin : double;
  xmax : double;
  ymin : double;
  ymax : double
}.

(** A [double*] that points to the [2 * n_dim = 4] coordinates of a
    rectangle, in the order xmin, xmax, ymin, ymax. *)
Record coords : Type := Coords { c0 : double; c1 : double; c2 : double; c3 : double }.

(** [gis::Cartesian_point] and [gis::Geographic_point]. *)
Record point : Type := Point { x : double; y : double }.

(** [gis::Cartesian_box] and [gis::Geographic_box]. *)
Record box : Type := Box { min_corner : point; max_corner : point }.

(** The coordinate system of a box: it selects the overload of the
    geometry routines. *)
Inductive coordinate_system : Type := cartesian | geographic.

(** ** The geometry routines the file calls

    The functors of [sql/gis], the WKB parser and Boost.Geometry are not
    part of this file. Each is a field here; [None] stands for a thrown
    exception. *)

Record Gis : Type := {
  Geometry : Type;
  (** [gis::Covered_by(semi_major, semi_minor)(&g1, &g2)] *)
  covered_by : coordinate_system -> double -> double -> box -> box -> option bool;
  (** [bg::expand(a_box, b_box)]: the new value of [a_box] *)
  expand : coordinate_system -> box -> box -> option box;
  (** [bg::area(a_box)] *)
  area_cartesian : box -> option double;
  (** [bg::area(a_box, geographic strategy on spheroid(major, minor))] *)
  area_geographic : double -> double -> box -> option double;
  (** [gis::parse_wkb(srs, wkb, length, ignore_axis_order)]; the inner
      [None] is a null geometry *)
  parse_wkb : srs_ptr -> list uchar -> Z -> bool -> option (option Geometry);
  (** [gis::box_envelope(g, srs, &box)]: the value left in [box] *)
  box_envelope : coordinate_system -> Geometry -> srs_ptr -> option box
}.

(** [srs ? srs->semi_major_axis() : 0.0] *)
Definition major_or_zero (srs : srs_ptr) : double :=
  match srs with Some s => semi_major_axis s | None => Dbl.zero end.

Definition minor_or_zero (srs : srs_ptr) : double :=
  match srs with Some s => semi_minor_axis s | None => Dbl.zero end.

(** [Box(Point(a0, a2), Point(a1, a3))] *)
Definition box_of_coords (a : coords) : box :=
  Box (Point (c0 a) (c2 a)) (Point (c1 a) (c3 a)).

(** The same with every coordinate passed through [srs->to_radians]. *)
Definition radian_box_of_coords (s : Spatial_reference_system) (a : coords) : box :=
  Box (Point (to_radians s (c0 a)) (to_radians s (c2 a)))
      (Point (to_radians s (c1 a)) (to_radians s (c3 a))).

(** The four assignments that copy a box into a coordinate array. *)
Definition coords_of_box (bx : box) : coords :=
  Coords (x (min_corner bx)) (x (max_corner bx))
         (y (min_corner bx)) (y (max_corner bx)).

Definition coords_of_radian_box (s : Spatial_reference_system) (bx : box) : coords :=
  Coords (from_radians s (x (min_corner bx))) (from_radians s (x (max_corner bx)))
         (from_radians s (y (min_corner bx))) (from_radians s (y (max_corner bx))).

Section Support.

Variable lib : Gis.
Variable bld : build.

(** *** Predicates *)

Definition mbr_intersect_cmp (srs : srs_ptr) (a b : rtr_mbr_t) : outcome bool :=
  DBUG_ASSERT bld
    (((xmin b <= xmax a) || (xmax b >= xmin a))
     && ((ymin b <= ymax a) || (ymax b >= ymin a))) ;;;
  Returns true.

Definition mbr_disjoint_cmp (srs : srs_ptr) (a b : rtr_mbr_t) : outcome bool :=
  r <- mbr_intersect_cmp srs a b ;;
  Returns (negb r).

(** What a [catch (...)] block of the predicates does with a result that
    is still [false]. *)
Definition caught {A : Type} (dflt : A) : outcome A :=
  DBUG_ASSERT bld false ;;; Returns dflt.

Definition mbr_within_cmp (srs : srs_ptr) (a b : rtr_mbr_t) : outcome bool :=
  let invert :=
    (xmin a > xmax a) && (ymin a > ymax a)
    && negb ((xmin a == xmin b) && (ymin a == ymin b)
             && (xmax a == xmax b) && (ymax a == ymax b)) in
  let a_xmin := Dbl.std_min (xmin a) (xmax a) in
  let a_ymin := Dbl.std_min (ymin a) (ymax a) in
  let a_xmax := Dbl.std_max (xmin a) (xmax a) in
  let a_ymax := Dbl.std_max (ymin a) (ymax a) in
  let b_xmin := Dbl.std_min (xmin b) (xmax b) in
  let b_ymin := Dbl.std_min (ymin b) (ymax b) in
  let b_xmax := Dbl.std_max (xmin b) (xmax b) in
  let b_ymax := Dbl.std_max (ymin b) (ymax b) in
  let finish (r : option bool) : outcome bool :=
    match r with
    | Some result => Returns (if invert then negb result else result)
    | None => caught false
    end in
  match srs with
  | Some s =>
      if is_cartesian s then
        finish (covered_by lib cartesian (semi_major_axis s) (semi_minor_axis s)
                  (Box (Point a_xmin a_ymin) (Point a_xmax a_ymax))
                  (Box (Point b_xmin b_ymin) (Point b_xmax b_ymax)))
      else
        DBUG_ASSERT bld (is_geographic s) ;;;
        finish (covered_by lib geographic (semi_major_axis s) (semi_minor_axis s)
                  (Box (Point (to_radians s a_xmin) (to_radians s a_ymin))
                       (Point (to_radians s a_xmax) (to_radians s a_ymax)))
                  (Box (Point (to_radians s b_xmin) (to_radians s b_ymin))
                       (Point (to_radians s b_xmax) (to_radians s b_ymax))))
  | None =>
      finish (covered_by lib cartesian Dbl.zero Dbl.zero
                (Box (Point a_xmin a_ymin) (Point a_xmax a_ymax))
                (Box (Point b_xmin b_ymin) (Point b_xmax b_ymax)))
  end.

(** *** Merge and area *)

(** Returns the new contents of [a]. *)
Definition mbr_join (srs : srs_ptr) (a b : coords) (n_dim : Z) : outcome coords :=
  DBUG_ASSERT bld (n_dim =? 2)%Z ;;;
  match srs with
  | Some s =>
      if is_cartesian s then
        match expand lib cartesian (box_of_coords a) (box_of_coords b) with
        | Some a_box => Returns (coords_of_box a_box)
        | None => caught a
        end
      else
        DBUG_ASSERT bld (is_geographic s) ;;;
        match expand lib geographic (radian_box_of_coords s a)
                (radian_box_of_coords s b) with
        | Some a_box => Returns (coords_of_radian_box s a_box)
        | None => caught a
        end
  | None =>
      match expand lib cartesian (box_of_coords a) (box_of_coords b) with
      | Some a_box => Returns (coords_of_box a_box)
      | None => caught a
      end
  end.

(** The value of the local [area] when the [try] block of [mbr_join_area]
    is left. *)
Definition join_area_try (srs : srs_ptr) (a b : coords) : outcome double :=
  let cart :=
    match expand lib cartesian (box_of_coords a) (box_of_coords b) with
    | Some a_box =>
        match area_cartesian lib a_box with
        | Some area => Returns area
        | None => caught Dbl.zero
        end
    | None => caught Dbl.zero
    end in
  match srs with
  | Some s =>
      if is_cartesian s then cart
      else
        DBUG_ASSERT bld (is_geographic s) ;;;
        match expand lib geographic (radian_box_of_coords s a)
                (radian_box_of_coords s b) with
        | Some a_box =>
            match area_geographic lib (semi_major_axis s) (semi_minor_axis s) a_box with
            | Some area => Returns area
            | None => caught Dbl.zero
            end
        | None => caught Dbl.zero
        end
  | None => cart
  end.

Definition mbr_join_area (srs : srs_ptr) (a b : coords) (n_dim : Z) : outcome double :=
  DBUG_ASSERT bld (n_dim =? 2)%Z ;;;
  area <- join_area_try srs a b ;;
  Returns (if negb (Dbl.isfinite area) then Dbl.max_double else area).

(** *** Rectangle of a stored record *)

(** What [get_mbr_from_store] hands back: the status, the four doubles
    stored through [mbr] (none when it returns before storing them) and the
    value stored through [srid] (none when [srid] is null). *)
Record store_result : Type := StoreResult {
  status : Z;
  mbr_out : option coords;
  srid_out : option Z
}.

(** The coordinates the [try] block stores through [mbr]; [None] when
    [box_envelope] throws. *)
Definition envelope_coords (srs : srs_ptr) (g : Geometry lib) : option coords :=
  match srs with
  | Some s =>
      if is_cartesian s then
        option_map coords_of_box (box_envelope lib cartesian g srs)
      else
        option_map (coords_of_radian_box s) (box_envelope lib geographic g srs)
  | None => option_map coords_of_box (box_envelope lib cartesian g srs)
  end.

(** The tail of [get_mbr_from_store], from the [std::isnan] test on. *)
Definition finish_mbr (mbr : coords) : outcome coords :=
  mbr' <-
    (if Dbl.isnan (c0 mbr) then
       DBUG_ASSERT bld (Dbl.isnan (c1 mbr) && Dbl.isnan (c2 mbr) && Dbl.isnan (c3 mbr)) ;;;
       Returns (Coords Dbl.lowest_double Dbl.max_double
                       Dbl.lowest_double Dbl.max_double)
     else Returns mbr) ;;
  DBUG_ASSERT bld ((c0 mbr' <= c1 mbr') && (c2 mbr' <= c3 mbr')) ;;;
  Returns mbr'.

(** [srid_wanted] says whether the [srid] argument is non-null. The
    length handed to the parser is [size - sizeof(gis::srid_t)], computed
    in [size_t]. *)
Definition get_mbr_from_store (srs : srs_ptr) (store : list uchar) (size : Z)
    (n_dims : Z) (srid_wanted : bool) : outcome store_result :=
  DBUG_ASSERT bld (n_dims =? 2)%Z ;;;
  match bld, srs with
  | Debug, Some s =>
      stored <- uint4korr store ;;
      DBUG_ASSERT bld (srs_id s =? stored)%Z
  | _, _ => Returns tt
  end ;;;
  srid <- (if srid_wanted then v <- uint4korr store ;; Returns (Some v)
           else Returns None) ;;
  match parse_wkb lib srs (advance 4 store) ((size - 4) mod 2 ^ 64)%Z true with
  | None => caught (StoreResult (-1) None srid)
  | Some None => Returns (StoreResult (-1) None srid)
  | Some (Some g) =>
      match srs with
      | Some s => if is_cartesian s then Returns tt else DBUG_ASSERT bld (is_geographic s)
      | None => Returns tt
      end ;;;
      match envelope_coords srs g with
      | None => caught (StoreResult (-1) None srid)
      | Some mbr =>
          mbr' <- finish_mbr mbr ;;
          Returns (StoreResult 0 (Some mbr') srid)
      end
  end.

End Support.

(** ** The other functions of the file *)

(** [Box(Point(a->xmin, a->ymin), Point(a->xmax, a->ymax))] *)
Definition mbr_box (a : rtr_mbr_t) : box :=
  Box (Point (xmin a) (ymin a)) (Point (xmax a) (ymax a)).

(** The same with every coordinate passed through [srs->to_radians]. *)
Definition radian_mbr_box (s : Spatial_reference_system) (a : rtr_mbr_t) : box :=
  Box (Point (to_radians s (xmin a)) (to_radians s (ymin a)))
      (Point (to_radians s (xmax a)) (to_radians s (ymax a))).

Section MoreSupport.

Variable lib : Gis.
Variable bld : build.

(** [gis::Equals(semi_major, semi_minor)(&g1, &g2)]; [None] stands for a
    thrown exception. *)
Variable equals : coordinate_system -> double -> double -> box -> box -> option bool.

(** The end of a predicate: the answer of the functor, or the handler. *)
Definition predicate_result (r : option bool) : outcome bool :=
  match r with
  | Some result => Returns result
  | None => caught bld false
  end.

Definition mbr_contain_cmp (srs : srs_ptr) (a b : rtr_mbr_t) : outcome bool :=
  DBUG_ASSERT bld ((xmin a <= xmax a) && (ymin a <= ymax a)) ;;;
  DBUG_ASSERT bld ((xmin b <= xmax b) && (ymin b <= ymax b)) ;;;
  match srs with
  | Some s =>
      if is_cartesian s then
        predicate_result
          (covered_by lib cartesian (semi_major_axis s) (semi_minor_axis s)
             (mbr_box b) (mbr_box a))
      else
        DBUG_ASSERT bld (is_geographic s) ;;;
        predicate_result
          (covered_by lib geographic (semi_major_axis s) (semi_minor_axis s)
             (radian_mbr_box s b) (radian_mbr_box s a))
  | None =>
      predicate_result
        (covered_by lib cartesian Dbl.zero Dbl.zero (mbr_box b) (mbr_box a))
  end.


(** The end of [compute_area]'s [try] block: the area, or the handler with
    [area] still [0.0]. *)
Definition area_result (r : option double) : outcome double :=
  match r with
  | Some area => Returns area
  | None => caught bld Dbl.zero
  end.

Definition compute_area (srs : srs_ptr) (a : coords) (n_dim : Z) : outcome double :=
  DBUG_ASSERT bld (n_dim =? 2)%Z ;;;
  match srs with
  | Some s =>
      if is_cartesian s then area_result (area_cartesian lib (box_of_coords a))
      else
        DBUG_ASSERT bld (is_geographic s) ;;;
        area_result
          (area_geographic lib (semi_major_axis s) (semi_minor_axis s)
             (radian_box_of_coords s a))
  | None => area_result (area_cartesian lib (box_of_coords a))
  end.

End MoreSupport.

(** [fetch_srs]. The dictionary lookup [Srs_fetcher::acquire(srid, &srs)]
    of the current session is the parameter [acquire]: it answers whether
    the lookup failed and what it left in [srs]. The clone of a reference
    system is the same value. *)
Definition fetch_srs (acquire : Z -> bool * srs_ptr) (srid : Z) : srs_ptr :=
  if (srid =? 0)%Z then None
  else
    let '(failed, srs) := acquire srid in
    if failed then None
    else match srs with
         | Some s => Some s
         | None => None
         end.

(** The length that [Item_func_json_quote::resolve_type] of
    [sql/item_json_func.h] declares, [(6 * args[0]->max_length) + 2] in
    [uint32]. *)
Definition json_quote_max_char_length (max_length : Z) : Z :=
  ((6 * max_length + 2) mod 2 ^ 32)%Z.


(** ** The raw-key metrics as the specification words them

    A key of [n] dimensions is read as a list of dimension pairs; the
    metrics are then products over that list. *)

Module RawKeySpec.

Import RawKey.

(** The double held by the eight bytes at [p]. *)
Definition double_at (p : list uchar) : double :=
  Dbl.of_bits (le_combine (firstn 8 p)).

(** The first [n] dimension pairs of the keys [ka] and [kb]. *)
Fixpoint dims (n : nat) (ka kb : list uchar) : list dim :=
  match n with
  | O => []
  | S n' =>
      Dim (double_at ka) (double_at (skipn 8 ka))
          (double_at kb) (double_at (skipn 8 kb))
        :: dims n' (skipn 16 ka) (skipn 16 kb)
  end.

(** A span, with the fixed weight in place of a zero span. *)
Definition weighted (span : double) : double :=
  if span == Dbl.zero then Dbl.milli else span.

Definition a_span (d : dim) : double := amax d - amin d.

Definition union_span (d : dim) : double :=
  Dbl.std_max (amax d) (bmax d) - Dbl.std_min (amin d) (bmin d).

(** The product, in key order and starting from [1.0], of [f] over the
    dimensions. *)
Definition product (f : dim -> double) (ds : list dim) : double :=
  fold_left (fun p d => p * f d) ds Dbl.one.

Definition aArea (ds : list dim) : double := product (fun d => weighted (a_span d)) ds.

Definition unionArea (ds : list dim) : double :=
  product (fun d => weighted (union_span d)) ds.

(** [B]'s bound exceeds [A]'s on the axis. *)
Definition b_exceeds (d : dim) : bool := (bmin d < amin d) || (bmax d > amax d).

(** What one dimension contributes to the compensation accumulator. *)
Definition compensation_factor (d : dim) : double :=
  if b_exceeds d then
    (Dbl.std_max (amax d) (bmax d) - amax d)
    + (amin d - Dbl.std_min (amin d) (bmin d))
  else union_span d.

(** The compensation accumulator after the dimensions [rev rds]: the last
    dimension contributes only when the two running products, taken after
    it, are equal. *)
Fixpoint compensation_rev (rds : list dim) : double :=
  match rds with
  | [] => Dbl.one
  | d :: earlier =>
      if unionArea (rev rds) == aArea (rev rds)
      then compensation_rev earlier * compensation_factor d
      else compensation_rev earlier
  end.

Definition compensation (ds : list dim) : double := compensation_rev (rev ds).

Definition delta (ds : list dim) : double :=
  if (unionArea ds == aArea ds) && (compensation ds != Dbl.one)
  then compensation ds
  else unionArea ds - aArea ds.

(** The overlap interval of one dimension. *)
Definition overlap_lo (d : dim) : double := Dbl.std_max (amin d) (bmin d).
Definition overlap_hi (d : dim) : double := Dbl.std_min (amax d) (bmax d).

Definition disjoint_on (d : dim) : bool := overlap_lo d > overlap_hi d.

Definition overlapArea (ds : list dim) : double :=
  if existsb disjoint_on ds then Dbl.zero
  else product (fun d => overlap_hi d - overlap_lo d) ds.

(** [A]'s stored pair is an interval and lies inside [B]'s. *)
Definition a_within_b (d : dim) : bool :=
  (bmin d <= amin d) && (amin d <= amax d) && (amax d <= bmax d).

(** The span [amax - amin] is not zero, as the source tests it. *)
Definition nonzero_span (d : dim) : bool := negb (a_span d == Dbl.zero).

(** The dimension has the same pair on both sides. *)
Definition same_pair (d : dim) : Prop := bmin d = amin d /\ bmax d = amax d.

End RawKeySpec.

(** ** Rectangles as the specification words them *)

(** Both axes of the stored rectangle are reversed. *)
Definition reversed_on_both_axes (a : rtr_mbr_t) : bool :=
  (xmin a > xmax a) && (ymin a > ymax a).

(** The two rectangles agree in all four stored coordinates. *)
Definition same_stored_coordinates (a b : rtr_mbr_t) : bool :=
  (xmin a == xmin b) && (ymin a == ymin b) && (xmax a == xmax b) && (ymax a == ymax b).

(** The rectangle with the bounds of each axis put in order. *)
Definition normalized (a : rtr_mbr_t) : rtr_mbr_t :=
  Mbr (Dbl.std_min (xmin a) (xmax a)) (Dbl.std_max (xmin a) (xmax a))
      (Dbl.std_min (ymin a) (ymax a)) (Dbl.std_max (ymin a) (ymax a)).

(** The coordinate model in force. *)
Definition model_of (srs : srs_ptr) : coordinate_system :=
  if null_or_cartesian srs then cartesian else geographic.

(** A coordinate in the unit of the model: radians when geographic. *)
Definition to_model (srs : srs_ptr) (v : double) : double :=
  match srs with
  | Some s => if is_cartesian s then v else to_radians s v
  | None => v
  end.

Definition from_model (srs : srs_ptr) (v : double) : double :=
  match srs with
  | Some s => if is_cartesian s then v else from_radians s v
  | None => v
  end.

Definition model_box (srs : srs_ptr) (a : rtr_mbr_t) : box :=
  Box (Point (to_model srs (xmin a)) (to_model srs (ymin a)))
      (Point (to_model srs (xmax a)) (to_model srs (ymax a))).

(** Covered-by on the normalized boxes, in the model in force. *)
Definition covered_by_normalized (lib : Gis) (srs : srs_ptr) (a b : rtr_mbr_t)
    : option bool :=
  covered_by lib (model_of srs) (major_or_zero srs) (minor_or_zero srs)
    (model_box srs (normalized a)) (model_box srs (normalized b)).

(** Modelled from the spec: [bg::expand] belongs to Boost.Geometry, which is
    not in this file. The join replaces [A] with the smallest rectangle
    covering both [A] and [B]: axis-wise min of mins, max of maxes. *)
Definition spec_expand (a b : box) : box :=
  Box (Point (Dbl.std_min (x (min_corner a)) (x (min_corner b)))
             (Dbl.std_min (y (min_corner a)) (y (min_corner b))))
      (Point (Dbl.std_max (x (max_corner a)) (x (max_corner b)))
             (Dbl.std_max (y (max_corner a)) (y (max_corner b)))).

(** The library's [expand] never throws and is the one of the
    specification. *)
Definition expand_as_specified (lib : Gis) : Prop :=
  forall cs a b, expand lib cs a b = Some (spec_expand a b).

(** [xmin <= xmax] and [ymin <= ymax]. *)
Definition ordered (c : coords) : bool := (c0 c <= c1 c) && (c2 c <= c3 c).

Definition all_nan (c : coords) : bool :=
  Dbl.isnan (c0 c) && Dbl.isnan (c1 c) && Dbl.isnan (c2 c) && Dbl.isnan (c3 c).

Definition some_nan (c : coords) : bool :=
  Dbl.isnan (c0 c) || Dbl.isnan (c1 c) || Dbl.isnan (c2 c) || Dbl.isnan (c3 c).

(** Equality of two rectangles, coordinate by coordinate, as [==] on
    doubles decides it. *)
Definition coords_eqb (p q : coords) : bool :=
  (c0 p == c0 q) && (c1 p == c1 q) && (c2 p == c2 q) && (c3 p == c3 q).

(** The rectangle that covers the entire domain. *)
Definition full_domain : coords :=
  Coords Dbl.lowest_double Dbl.max_double Dbl.lowest_double Dbl.max_double.

(** The conversions of a geographic reference system keep a number a
    number and send equal angles to equal angles. *)
Definition regular_conversions (srs : srs_ptr) : Prop :=
  match srs with
  | Some s =>
      if is_cartesian s then True
      else (forall v, Dbl.isnan v = false -> Dbl.isnan (to_radians s v) = false)
           /\ (forall u v, (u == v) = true -> (from_radians s u == from_radians s v) = true)
  | None => True
  end.

(** What the source asserts of the four coordinates it gets from the
    envelope: all of them NaN when xmin is, ordered otherwise. *)
Definition asserted_envelope (mbr : coords) : bool :=
  if Dbl.isnan (c0 mbr)
  then Dbl.isnan (c1 mbr) && Dbl.isnan (c2 mbr) && Dbl.isnan (c3 mbr)
  else ordered mbr.

(** The library keeps that contract on the geometry it decodes from the
    record. *)
Definition envelope_as_asserted (lib : Gis) (srs : srs_ptr) (store : list uchar)
    (size : Z) : Prop :=
  forall (g : Geometry lib) (mbr : coords),
    parse_wkb lib srs (advance 4 store) ((size - 4) mod 2 ^ 64)%Z true = Some (Some g) ->
    envelope_coords lib srs g = Some mbr ->
    asserted_envelope mbr = true.

(** The place of a double in the order of the doubles: class, then
    exponent, then mantissa, mirrored for negative numbers. *)
Definition rank (v : double) : Z * Z * Z :=
  match v with
  | S754_zero _ | S754_nan => (0, 0, 0)%Z
  | S754_infinity s => (if s then -2 else 2, 0, 0)%Z
  | S754_finite false m e => (1, e, Zpos m)%Z
  | S754_finite true m e => (-1, - e, Zneg m)%Z
  end.

(** Lexicographic comparison of ranks. *)
Definition lex (t u : Z * Z * Z) : comparison :=
  let '(a, b, c) := t in
  let '(a', b', c') := u in
  match (a ?= a')%Z with
  | Eq => match (b ?= b')%Z with Eq => (c ?= c')%Z | r => r end
  | r => r
  end.

(** The invariant of a stored rectangle. *)
Definition valid_mbr (a : rtr_mbr_t) : bool := (xmin a <= xmax a) && (ymin a <= ymax a).

(** The rectangle with the two bounds of each axis exchanged. *)
Definition swapped (a : rtr_mbr_t) : rtr_mbr_t :=
  Mbr (xmax a) (xmin a) (ymax a) (ymin a).

(** [xmin < xmax] and [ymin < ymax]. *)
Definition strictly_ordered (a : rtr_mbr_t) : bool :=
  (xmin a < xmax a) && (ymin a < ymax a).

(** What the last statement of [mbr_join_area] makes of an area. *)
Definition finite_or_max_double (area : double) : double :=
  if Dbl.isfinite area then area else Dbl.max_double.

(** The number of turns the loops over a key of [mbr_len] bytes make: one
    for every started segment of 16 bytes. *)
Definition segments (mbr_len : Z) : nat := Z.to_nat ((mbr_len + 15) / 16).

(** [B]'s interval lies inside [A]'s. *)
Definition b_inside_a (d : RawKey.dim) : bool :=
  (RawKey.amin d <= RawKey.bmin d) && (RawKey.bmax d <= RawKey.amax d).

(** ** Stand-ins used in the examples *)

(** Planar covered-by of boxes. *)
Definition planar_covered_by (a b : box) : bool :=
  (x (min_corner b) <= x (min_corner a)) && (x (max_corner a) <= x (max_corner b))
  && (y (min_corner b) <= y (min_corner a)) && (y (max_corner a) <= y (max_corner b)).

(** Planar area of a box. *)
Definition planar_area (a : box) : double :=
  (x (max_corner a) - x (min_corner a)) * (y (max_corner a) - y (min_corner a)).

(** A library in which a geometry is its own envelope and every payload
    parses to the geometry [g]. *)
Definition planar_gis (g : box) : Gis := {|
  Geometry := box;
  covered_by := fun _ _ _ a b => Some (planar_covered_by a b);
  expand := fun _ a b => Some (spec_expand a b);
  area_cartesian := fun a => Some (planar_area a);
  area_geographic := fun _ _ a => Some (planar_area a);
  parse_wkb := fun _ _ _ _ => Some (Some g);
  box_envelope := fun _ geom _ => Some geom
|}.

(** A geographic reference system whose angular unit is the radian. *)
Definition radian_srs : Spatial_reference_system := {|
  srs_id := 4326;
  srs_kind := GEOGRAPHIC;
  semi_major_axis := Dbl.of_Z 6378137;
  semi_minor_axis := Dbl.of_Z 6356752;
  to_radians := fun v => v;
  from_radians := fun v => v
|}.

(** The key of the square [[lo, hi] x [lo, hi]]. *)
Definition square_key (lo hi : Z) : list uchar :=
  RawKey.encode_key [(Dbl.of_Z lo, Dbl.of_Z hi); (Dbl.of_Z lo, Dbl.of_Z hi)].

(** Envelopes used in the examples: one with only xmax NaN, one with only
    xmin NaN, and the envelope of an empty geometry. *)
Definition nan_xmax_box : box := Box (Point Dbl.zero Dbl.zero) (Point Dbl.nan Dbl.zero).
Definition nan_xmin_box : box := Box (Point Dbl.nan Dbl.zero) (Point Dbl.one Dbl.one).
Definition empty_box : box := Box (Point Dbl.nan Dbl.nan) (Point Dbl.nan Dbl.nan).


(** A library whose parser finds no geometry in any payload. *)
Definition unparsable_gis : Gis := {|
  Geometry := unit;
  covered_by := fun _ _ _ _ _ => None;
  expand := fun _ _ _ => None;
  area_cartesian := fun _ => None;
  area_geographic := fun _ _ _ => None;
  parse_wkb := fun _ _ _ _ => Some None;
  box_envelope := fun _ _ _ => None
|}.

(** A projected reference system. *)
Definition projected_srs : Spatial_reference_system := {|
  srs_id := 3857;
  srs_kind := PROJECTED;
  semi_major_axis := Dbl.of_Z 6378137;
  semi_minor_axis := Dbl.of_Z 6356752;
  to_radians := fun v => v;
  from_radians := fun v => v
|}.

(** A dictionary that holds the two sample reference systems. *)
Definition sample_acquire (srid : Z) : bool * srs_ptr :=
  if (srid =? 4326)%Z then (false, Some radian_srs)
  else if (srid =? 3857)%Z then (false, Some projected_srs)
  else if (srid =? 1)%Z then (true, None)
  else (false, None).

(** A record: four bytes of identifier, then a payload. *)
Definition sample_store : list uchar :=
  RawKey.le_split 4 4326 ++ RawKey.le_split 8 0.


(** * Facts about doubles *)

Module DblFacts.

(** The constants of the source, as sign, mantissa and exponent. *)
Example constants_binary64 :
  Dbl.one = S754_finite false (2 ^ 52) (-52)
  /\ Dbl.milli = S754_finite false 4611686018427388 (-62)
  /\ Dbl.max_double = S754_finite false (2 ^ 53 - 1) 971
  /\ Dbl.lowest_double = S754_finite true (2 ^ 53 - 1) 971
  /\ Dbl.of_bits (Dbl.to_bits Dbl.milli) = Dbl.milli
  /\ Dbl.of_Z 225 - Dbl.of_Z 100 = Dbl.of_Z 125.
Proof. vm_compute. repeat split. Qed.

Lemma compare_refl (v : double) :
  Dbl.isnan v = false -> SFcompare v v = Some Eq.
Proof.
  destruct v as [s | s | | s m e]; simpl; intros H; try discriminate.
  - reflexivity.
  - destruct s; reflexivity.
  - rewrite Z.compare_refl, Pos.compare_cont_refl. destruct s; reflexivity.
Qed.

Lemma compare_nan_l (v : double) : SFcompare S754_nan v = None.
Proof. reflexivity. Qed.

Lemma compare_nan_r (v : double) : SFcompare v S754_nan = None.
Proof. destruct v; reflexivity. Qed.

Lemma compare_some_not_nan (u v : double) (c : comparison) :
  SFcompare u v = Some c -> Dbl.isnan u = false /\ Dbl.isnan v = false.
Proof.
  destruct u, v; simpl; intros H; try discriminate; split; reflexivity.
Qed.

(** Swapping the operands reverses the comparison. *)
Lemma compare_swap (u v : double) (c : comparison) :
  SFcompare u v = Some c -> SFcompare v u = Some (CompOpp c).
Proof.
  destruct u as [s1 | s1 | | s1 m1 e1], v as [s2 | s2 | | s2 m2 e2]; simpl;
    intros H; try discriminate; injection H as <-;
    try (destruct s1; try destruct s2; reflexivity);
    try (destruct s2; reflexivity).
  rewrite (Z.compare_antisym e1 e2).
  pose proof (Pos.compare_cont_antisym m1 m2 Eq) as A. simpl in A. rewrite <- A.
  destruct s1, s2; simpl; try reflexivity;
    destruct (e1 ?= e2)%Z; simpl; try reflexivity.
Qed.

Lemma ltb_irrefl (v : double) : (v < v) = false.
Proof.
  unfold Dbl.ltb, SFltb. destruct (Dbl.isnan v) eqn:N.
  - destruct v; try discriminate. reflexivity.
  - rewrite (compare_refl v N). reflexivity.
Qed.

Lemma gtb_irrefl (v : double) : (v > v) = false.
Proof.
  unfold Dbl.gtb. destruct (Dbl.isnan v) eqn:N.
  - destruct v; try discriminate. reflexivity.
  - rewrite (compare_refl v N). reflexivity.
Qed.

Lemma eqb_refl (v : double) : Dbl.isnan v = false -> (v == v) = true.
Proof.
  intros N. unfold Dbl.eqb, SFeqb. rewrite (compare_refl v N). reflexivity.
Qed.

Lemma eqb_nan_l (v : double) : (S754_nan == v) = false.
Proof. reflexivity. Qed.

Lemma eqb_self_nan (v : double) : Dbl.isnan v = true -> (v == v) = false.
Proof. destruct v; simpl; intros H; try discriminate. reflexivity. Qed.

Lemma eqb_sym (u v : double) : (u == v) = (v == u).
Proof.
  unfold Dbl.eqb, SFeqb.
  destruct (SFcompare u v) as [c |] eqn:E.
  - rewrite (compare_swap _ _ _ E). destruct c; reflexivity.
  - destruct (SFcompare v u) as [c |] eqn:E'; [| reflexivity].
    rewrite (compare_swap _ _ _ E') in E. discriminate.
Qed.

(** A double that compares equal to [1.0] is [1.0]. *)
Lemma eqb_one (v : double) : (v == Dbl.one) = true -> v = Dbl.one.
Proof.
  unfold Dbl.eqb, SFeqb. change Dbl.one with (S754_finite false 4503599627370496 (-52)).
  destruct v as [s | s | | s m e]; cbn [SFcompare].
  - destruct s; intros H; discriminate H.
  - destruct s; intros H; discriminate H.
  - intros H; discriminate H.
  - destruct s; [intros H; discriminate H |].
    destruct (e ?= -52)%Z eqn:E; try (intros H; discriminate H).
    apply Z.compare_eq in E. subst e.
    destruct (Pos.compare_cont Eq m 4503599627370496) eqn:M;
      try (intros H; discriminate H).
    apply Pos.compare_eq in M. subst m. reflexivity.
Qed.

Lemma mul_nan_l (v : double) : S754_nan * v = S754_nan.
Proof. reflexivity. Qed.

Lemma mul_not_nan_l (u v : double) :
  Dbl.isnan (u * v) = false -> Dbl.isnan u = false.
Proof. destruct u; simpl; intros H; try reflexivity. discriminate. Qed.

Lemma sub_nan_nan : S754_nan - S754_nan = S754_nan.
Proof. reflexivity. Qed.

Lemma std_max_same (v : double) : Dbl.std_max v v = v.
Proof. unfold Dbl.std_max. destruct (v < v); reflexivity. Qed.

Lemma std_min_same (v : double) : Dbl.std_min v v = v.
Proof. unfold Dbl.std_min. destruct (v < v); reflexivity. Qed.

(** [u <= v] rules out [v < u] and [u > v]. *)
Lemma leb_not_ltb (u v : double) : (u <= v) = true -> (v < u) = false.
Proof.
  unfold Dbl.leb, SFleb, Dbl.ltb, SFltb.
  destruct (SFcompare u v) as [c |] eqn:E; [| discriminate].
  rewrite (compare_swap _ _ _ E). destruct c; simpl; intros H; try discriminate; reflexivity.
Qed.

Lemma leb_not_gtb (u v : double) : (u <= v) = true -> (u > v) = false.
Proof.
  unfold Dbl.leb, SFleb, Dbl.gtb.
  destruct (SFcompare u v) as [[| |] |]; intros H; try discriminate; reflexivity.
Qed.

Lemma leb_not_nan (u v : double) :
  (u <= v) = true -> Dbl.isnan u = false /\ Dbl.isnan v = false.
Proof.
  unfold Dbl.leb, SFleb. destruct (SFcompare u v) as [c |] eqn:E; [| discriminate].
  intros _. exact (compare_some_not_nan _ _ _ E).
Qed.

(** Whichever way round the operands are given, [std::min] returns equal
    doubles, as long as neither is NaN; so does [std::max]. *)
Lemma std_min_swap (u v : double) :
  Dbl.isnan u = false -> Dbl.isnan v = false ->
  (Dbl.std_min u v == Dbl.std_min v u) = true.
Proof.
  intros Nu Nv. unfold Dbl.std_min, Dbl.ltb, SFltb.
  destruct (SFcompare v u) as [c |] eqn:E.
  - rewrite (compare_swap _ _ _ E).
    destruct c; simpl; try (apply eqb_refl; assumption).
    unfold Dbl.eqb, SFeqb. rewrite (compare_swap _ _ _ E). reflexivity.
  - destruct u, v; try discriminate; simpl in E; try discriminate;
      destruct s; try destruct s0; discriminate.
Qed.

Lemma std_max_swap (u v : double) :
  Dbl.isnan u = false -> Dbl.isnan v = false ->
  (Dbl.std_max u v == Dbl.std_max v u) = true.
Proof.
  intros Nu Nv. unfold Dbl.std_max, Dbl.ltb, SFltb.
  destruct (SFcompare u v) as [c |] eqn:E.
  - rewrite (compare_swap _ _ _ E).
    destruct c; simpl; try (apply eqb_refl; assumption).
    unfold Dbl.eqb, SFeqb. rewrite E. reflexivity.
  - destruct u, v; try discriminate; simpl in E; try discriminate;
      destruct s; try destruct s0; discriminate.
Qed.

Lemma std_min_not_nan (u v : double) :
  Dbl.isnan u = false -> Dbl.isnan v = false -> Dbl.isnan (Dbl.std_min u v) = false.
Proof. intros Nu Nv. unfold Dbl.std_min. destruct (v < u); assumption. Qed.

Lemma std_max_not_nan (u v : double) :
  Dbl.isnan u = false -> Dbl.isnan v = false -> Dbl.isnan (Dbl.std_max u v) = false.
Proof. intros Nu Nv. unfold Dbl.std_max. destruct (u < v); assumption. Qed.

(** [SFcompare] is the lexicographic comparison of ranks. *)
Lemma compare_rank (u v : double) :
  Dbl.isnan u = false -> Dbl.isnan v = false ->
  SFcompare u v = Some (lex (rank u) (rank v)).
Proof.
  destruct u as [s1 | s1 | | s1 m1 e1], v as [s2 | s2 | | s2 m2 e2];
    intros Nu Nv; try discriminate; cbn [SFcompare rank lex];
    try (destruct s1; try destruct s2; reflexivity);
    try (destruct s2; reflexivity).
  destruct s1, s2; cbn [negb]; try reflexivity.
  unfold lex. change (-1 ?= -1)%Z with Eq. cbv iota.
  rewrite Z.compare_opp, (Z.compare_antisym e1 e2).
  destruct (e1 ?= e2)%Z; reflexivity.
Qed.

Lemma lex_lt (t u : Z * Z * Z) :
  lex t u = Lt <->
  (fst (fst t) < fst (fst u)
   \/ (fst (fst t) = fst (fst u)
       /\ (snd (fst t) < snd (fst u)
           \/ (snd (fst t) = snd (fst u) /\ snd t < snd u))))%Z.
Proof.
  destruct t as [[a b] c], u as [[a' b'] c']. cbn [lex fst snd].
  destruct (Z.compare_spec a a'); destruct (Z.compare_spec b b');
    destruct (Z.compare_spec c c'); split; intros; try discriminate; try reflexivity; lia.
Qed.

Lemma lex_eq (t u : Z * Z * Z) : lex t u = Eq <-> t = u.
Proof.
  destruct t as [[a b] c], u as [[a' b'] c']. cbn [lex].
  destruct (Z.compare_spec a a'); destruct (Z.compare_spec b b');
    destruct (Z.compare_spec c c'); split; intros H'; try discriminate; try reflexivity;
    try (injection H' as -> -> ->; lia); subst; reflexivity.
Qed.

Lemma leb_rank (u v : double) :
  (u <= v) = true ->
  Dbl.isnan u = false /\ Dbl.isnan v = false
  /\ (lex (rank u) (rank v) = Lt \/ rank u = rank v).
Proof.
  intros H. destruct (leb_not_nan _ _ H) as [Nu Nv].
  repeat split; try assumption.
  unfold Dbl.leb, SFleb in H. rewrite (compare_rank u v Nu Nv) in H.
  destruct (lex (rank u) (rank v)) eqn:E; try discriminate.
  - right. apply lex_eq, E.
  - left. reflexivity.
Qed.

(** Two ordered intervals always pass the test that the assertion of
    [mbr_intersect_cmp] makes on an axis. *)
Lemma ordered_axis_assertion (amin amax bmin bmax : double) :
  (amin <= amax) = true -> (bmin <= bmax) = true ->
  (bmin <= amax) || (bmax >= amin) = true.
Proof.
  intros Ha Hb.
  destruct (leb_rank _ _ Ha) as (Namin & Namax & Oa).
  destruct (leb_rank _ _ Hb) as (Nbmin & Nbmax & Ob).
  unfold Dbl.leb, SFleb, Dbl.geb.
  rewrite (compare_rank bmin amax Nbmin Namax), (compare_rank bmax amin Nbmax Namin).
  destruct (lex (rank bmin) (rank amax)) eqn:E1; try reflexivity.
  destruct (lex (rank bmax) (rank amin)) eqn:E2; try reflexivity.
  exfalso.
  apply lex_lt in E2.
  assert (E1' : lex (rank amax) (rank bmin) = Lt).
  { pose proof (compare_swap bmin amax Gt) as S.
    rewrite (compare_rank bmin amax Nbmin Namax), E1 in S.
    specialize (S eq_refl). rewrite (compare_rank amax bmin Namax Nbmin) in S.
    injection S as ->. reflexivity. }
  apply lex_lt in E1'.
  destruct Oa as [Oa | Oa]; [apply lex_lt in Oa |];
    destruct Ob as [Ob | Ob]; [apply lex_lt in Ob | | apply lex_lt in Ob |];
    destruct (rank amin) as [[a1 a2] a3], (rank amax) as [[b1 b2] b3],
             (rank bmin) as [[c1 c2] c3], (rank bmax) as [[d1 d2] d3];
    cbn [fst snd] in *;
    try (injection Oa as -> -> ->); try (injection Ob as -> -> ->); lia.
Qed.

End DblFacts.


(** * The raw-key loops and the lists of dimension pairs *)

Module RawKeyFacts.

Import RawKey RawKeySpec.

Lemma doubleget_ok (p : list uchar) :
  (8 <= length p)%nat -> doubleget p = Returns (double_at p).
Proof.
  intros H. unfold doubleget.
  rewrite (proj2 (Nat.ltb_ge _ _) H). reflexivity.
Qed.

Lemma read_dim_ok (ka kb : list uchar) :
  (16 <= length ka)%nat -> (16 <= length kb)%nat ->
  read_dim ka kb =
  Returns (Dim (double_at ka) (double_at (skipn 8 ka))
               (double_at kb) (double_at (skipn 8 kb))).
Proof.
  intros Ha Hb. unfold read_dim, advance.
  rewrite (doubleget_ok ka) by lia. cbn [bind].
  rewrite (doubleget_ok kb) by lia. cbn [bind].
  rewrite (doubleget_ok (skipn 8 ka)) by (rewrite length_skipn; lia). cbn [bind].
  rewrite (doubleget_ok (skipn 8 kb)) by (rewrite length_skipn; lia). reflexivity.
Qed.

(** One turn of the loop of [rtree_area_increase]. *)
Lemma increase_loop_unfold (key_len : Z) (ka kb : list uchar) (st : inc_state) :
  increase_loop key_len ka kb st =
  if (0 <? key_len)%Z then
    match read_dim ka kb with
    | Returns d =>
        increase_loop (key_len - keyseg_len) (advance 16 ka) (advance 16 kb)
          (increase_body st d)
    | AssertionFailure => AssertionFailure
    | OutOfBounds => OutOfBounds
    end
  else Returns st.
Proof.
  rewrite increase_loop_equation_1.
  destruct (Z_lt_dec 0 key_len) as [H | H].
  - rewrite (proj2 (Z.ltb_lt _ _) H). cbn [increase_loop_unfold_clause_1].
    destruct (read_dim ka kb); reflexivity.
  - rewrite (proj2 (Z.ltb_nlt _ _) H). reflexivity.
Qed.

(** One turn of the loop of [rtree_area_overlapping]. *)
Lemma overlap_loop_unfold (key_len : Z) (ka kb : list uchar) (area : double) :
  overlap_loop key_len ka kb area =
  if (0 <? key_len)%Z then
    match read_dim ka kb with
    | Returns d =>
        if disjoint_on d then Returns (inl Dbl.zero)
        else overlap_loop (key_len - keyseg_len) (advance 16 ka) (advance 16 kb)
               (area * (overlap_hi d - overlap_lo d))
    | AssertionFailure => AssertionFailure
    | OutOfBounds => OutOfBounds
    end
  else Returns (inr area).
Proof.
  rewrite overlap_loop_equation_1.
  destruct (Z_lt_dec 0 key_len) as [H | H].
  - rewrite (proj2 (Z.ltb_lt _ _) H). cbn [overlap_loop_unfold_clause_1].
    destruct (read_dim ka kb) as [d | |]; try reflexivity.
    cbn [overlap_loop_unfold_clause_1_clause_2].
    unfold disjoint_on, overlap_lo, overlap_hi.
    destruct (Dbl.gtb (Dbl.std_max (amin d) (bmin d)) (Dbl.std_min (amax d) (bmax d)));
      reflexivity.
  - rewrite (proj2 (Z.ltb_nlt _ _) H). reflexivity.
Qed.

(** On keys that hold [n] dimension pairs the loop of
    [rtree_area_increase] runs its body over them in order. *)
Lemma increase_loop_dims (n : nat) :
  forall (ka kb : list uchar) (st : inc_state),
    (16 * n <= length ka)%nat -> (16 * n <= length kb)%nat ->
    increase_loop (16 * Z.of_nat n) ka kb st =
    Returns (fold_left increase_body (dims n ka kb) st).
Proof.
  induction n as [| n IH]; intros ka kb st Ha Hb.
  - rewrite increase_loop_unfold. reflexivity.
  - rewrite increase_loop_unfold.
    replace (0 <? 16 * Z.of_nat (S n))%Z with true by (symmetry; apply Z.ltb_lt; lia).
    rewrite read_dim_ok by lia.
    replace (16 * Z.of_nat (S n) - keyseg_len)%Z with (16 * Z.of_nat n)%Z
      by (unfold keyseg_len; lia).
    unfold advance. rewrite IH by (rewrite length_skipn; lia).
    reflexivity.
Qed.

(** The same for [rtree_area_overlapping], as long as no dimension is
    disjoint. *)
Lemma overlap_loop_dims (n : nat) :
  forall (ka kb : list uchar) (area : double),
    (16 * n <= length ka)%nat -> (16 * n <= length kb)%nat ->
    overlap_loop (16 * Z.of_nat n) ka kb area =
    Returns (if existsb disjoint_on (dims n ka kb) then inl Dbl.zero
             else inr (fold_left (fun p d => p * (overlap_hi d - overlap_lo d))
                         (dims n ka kb) area)).
Proof.
  induction n as [| n IH]; intros ka kb area Ha Hb.
  - rewrite overlap_loop_unfold. reflexivity.
  - rewrite overlap_loop_unfold.
    replace (0 <? 16 * Z.of_nat (S n))%Z with true by (symmetry; apply Z.ltb_lt; lia).
    rewrite read_dim_ok by lia.
    cbn [dims existsb fold_left].
    destruct (disjoint_on _); [reflexivity |].
    replace (16 * Z.of_nat (S n) - keyseg_len)%Z with (16 * Z.of_nat n)%Z
      by (unfold keyseg_len; lia).
    unfold advance. rewrite IH by (rewrite length_skipn; lia).
    reflexivity.
Qed.

Lemma product_snoc (f : dim -> double) (ds : list dim) (d : dim) :
  product f (ds ++ [d]) = product f ds * f d.
Proof. unfold product. rewrite fold_left_app. reflexivity. Qed.

Lemma compensation_snoc (ds : list dim) (d : dim) :
  compensation (ds ++ [d]) =
  if unionArea (ds ++ [d]) == aArea (ds ++ [d])
  then compensation ds * compensation_factor d
  else compensation ds.
Proof.
  unfold compensation. rewrite rev_unit. cbn [compensation_rev].
  change (rev (d :: rev ds)) with (rev (rev ds) ++ [d])%list.
  rewrite rev_involutive. reflexivity.
Qed.

(** The three locals of the loop are the two area products and the
    compensation accumulator of the specification. *)
Lemma increase_fold_spec (ds : list dim) :
  fold_left increase_body ds (IncState Dbl.one Dbl.one Dbl.one) =
  IncState (aArea ds) (unionArea ds) (compensation ds).
Proof.
  induction ds as [| d ds IH] using rev_ind.
  - reflexivity.
  - rewrite fold_left_app, IH. cbn [fold_left].
    rewrite compensation_snoc. unfold aArea, unionArea.
    rewrite !product_snoc.
    unfold increase_body, compensation_factor, b_exceeds, weighted, a_span,
      union_span, line_mbr_weights.
    cbn [a_area loc_ab_area data_round].
    destruct (amax d - amin d == Dbl.zero);
      destruct (Dbl.std_max (amax d) (bmax d) - Dbl.std_min (amin d) (bmin d) == Dbl.zero);
      destruct ((bmin d < amin d) || (bmax d > amax d));
      reflexivity.
Qed.

(** [rtree_area_increase] on well-formed keys. *)
Lemma area_increase_dims (srs : srs_ptr) (n : nat) (ka kb : list uchar) :
  (16 * n <= length ka)%nat -> (16 * n <= length kb)%nat ->
  rtree_area_increase srs ka kb (16 * Z.of_nat n) =
  Returns (delta (dims n ka kb), unionArea (dims n ka kb)).
Proof.
  intros Ha Hb. unfold rtree_area_increase.
  rewrite increase_loop_dims by assumption. cbn [bind].
  rewrite increase_fold_spec. cbn [a_area loc_ab_area data_round].
  unfold delta.
  destruct ((unionArea (dims n ka kb) == aArea (dims n ka kb))
            && (compensation (dims n ka kb) != Dbl.one)); reflexivity.
Qed.

Lemma area_overlapping_dims (srs : srs_ptr) (n : nat) (ka kb : list uchar) :
  (16 * n <= length ka)%nat -> (16 * n <= length kb)%nat ->
  rtree_area_overlapping srs ka kb (16 * Z.of_nat n) =
  Returns (overlapArea (dims n ka kb)).
Proof.
  intros Ha Hb. unfold rtree_area_overlapping.
  rewrite overlap_loop_dims by assumption. cbn [bind].
  unfold overlapArea, product.
  destruct (existsb disjoint_on (dims n ka kb)); reflexivity.
Qed.

End RawKeyFacts.


(** * The raw-key metrics *)

Section RawKeyClaims.

Import RawKey RawKeySpec RawKeyFacts.

Lemma dims_same_key (n : nat) :
  forall k : list uchar, Forall same_pair (dims n k k).
Proof.
  induction n as [| n IH]; intros k; cbn [dims]; constructor.
  - split; reflexivity.
  - apply IH.
Qed.

Lemma same_pair_union_span (d : dim) : same_pair d -> union_span d = a_span d.
Proof.
  intros [Hmin Hmax]. unfold union_span, a_span. rewrite Hmin, Hmax.
  rewrite DblFacts.std_max_same, DblFacts.std_min_same. reflexivity.
Qed.

Lemma same_pair_factor (d : dim) : same_pair d -> compensation_factor d = a_span d.
Proof.
  intros H. unfold compensation_factor, b_exceeds.
  destruct H as [Hmin Hmax]. rewrite Hmin, Hmax.
  rewrite DblFacts.ltb_irrefl, DblFacts.gtb_irrefl. cbn [orb].
  apply same_pair_union_span. split; assumption.
Qed.

Lemma nonzero_weighted (d : dim) : nonzero_span d = true -> weighted (a_span d) = a_span d.
Proof.
  unfold nonzero_span, weighted. destruct (a_span d == Dbl.zero); [discriminate | reflexivity].
Qed.

(** With the same key on both sides and no zero span, the two area
    products are the plain product of the spans, and so is the
    compensation accumulator as long as that product is a number. *)
Lemma same_key_products (ds : list dim) :
  Forall same_pair ds -> forallb nonzero_span ds = true ->
  aArea ds = product a_span ds
  /\ unionArea ds = product a_span ds
  /\ (Dbl.isnan (product a_span ds) = false -> compensation ds = product a_span ds).
Proof.
  induction ds as [| d ds IH] using rev_ind; intros Hsame Hnz.
  - repeat split.
  - apply Forall_app in Hsame as [Hsame Hd]. inversion Hd as [| ? ? Hd' _]; subst.
    rewrite forallb_app in Hnz. apply andb_true_iff in Hnz as [Hnz Hnd].
    cbn [forallb] in Hnd. rewrite andb_true_r in Hnd.
    destruct (IH Hsame Hnz) as (HA & HU & HC).
    assert (EA : aArea (ds ++ [d]) = product a_span (ds ++ [d])).
    { unfold aArea in *. rewrite !product_snoc, HA, (nonzero_weighted d Hnd). reflexivity. }
    assert (EU : unionArea (ds ++ [d]) = product a_span (ds ++ [d])).
    { unfold unionArea in *. rewrite !product_snoc, HU, (same_pair_union_span d Hd').
      rewrite (nonzero_weighted d Hnd). reflexivity. }
    repeat split; try assumption.
    intros N. rewrite compensation_snoc, EA, EU, (DblFacts.eqb_refl _ N).
    rewrite product_snoc in *. rewrite (same_pair_factor d Hd').
    rewrite HC; [reflexivity |]. exact (DblFacts.mul_not_nan_l _ _ N).
Qed.

(** C8: the reference system has no influence on either raw-key metric:
    for every two reference systems (null included), keys and length, both
    [rtree_area_increase] and [rtree_area_overlapping] give the same
    outcome. *)
Theorem raw_key_metrics_ignore_srs (srs1 srs2 : srs_ptr) (mbr_a mbr_b : list uchar)
    (mbr_len : Z) :
  rtree_area_increase srs1 mbr_a mbr_b mbr_len
  = rtree_area_increase srs2 mbr_a mbr_b mbr_len
  /\ rtree_area_overlapping srs1 mbr_a mbr_b mbr_len
     = rtree_area_overlapping srs2 mbr_a mbr_b mbr_len.
Proof. split; reflexivity. Qed.

(** C3: on keys of [n] dimension pairs, the delta returned by
    [rtree_area_increase] is the compensation accumulator exactly when the
    union-area product equals the A-area product and the accumulator
    differs from 1.0, and is unionArea - aArea otherwise; the second output
    is the union area. The accumulator starts at 1.0 and, dimension by
    dimension, is multiplied only when the two running products are equal
    after that dimension: by (max(amax,bmax) - amax) + (amin -
    min(amin,bmin)) when bmin < amin or bmax > amax, by the plain union span
    otherwise. *)
Theorem rtree_area_increase_compensation (srs : srs_ptr) (n : nat)
    (mbr_a mbr_b : list uchar) :
  (16 * n <= length mbr_a)%nat -> (16 * n <= length mbr_b)%nat ->
  rtree_area_increase srs mbr_a mbr_b (16 * Z.of_nat n)
  = Returns
      (if (unionArea (dims n mbr_a mbr_b) == aArea (dims n mbr_a mbr_b))
          && (compensation (dims n mbr_a mbr_b) != Dbl.one)
       then compensation (dims n mbr_a mbr_b)
       else unionArea (dims n mbr_a mbr_b) - aArea (dims n mbr_a mbr_b),
       unionArea (dims n mbr_a mbr_b))
  /\ compensation [] = Dbl.one
  /\ forall (k : nat) (d : dim),
       nth_error (dims n mbr_a mbr_b) k = Some d ->
       compensation (firstn (S k) (dims n mbr_a mbr_b))
       = if unionArea (firstn (S k) (dims n mbr_a mbr_b))
            == aArea (firstn (S k) (dims n mbr_a mbr_b))
         then compensation (firstn k (dims n mbr_a mbr_b))
              * (if (bmin d < amin d) || (bmax d > amax d)
                 then (Dbl.std_max (amax d) (bmax d) - amax d)
                      + (amin d - Dbl.std_min (amin d) (bmin d))
                 else Dbl.std_max (amax d) (bmax d) - Dbl.std_min (amin d) (bmin d))
         else compensation (firstn k (dims n mbr_a mbr_b)).
Proof.
  intros Ha Hb. split; [| split].
  - rewrite (area_increase_dims srs n mbr_a mbr_b Ha Hb). reflexivity.
  - reflexivity.
  - intros k d Hk.
    assert (E : firstn (S k) (dims n mbr_a mbr_b)
                = (firstn k (dims n mbr_a mbr_b) ++ [d])%list).
    { revert k Hk. generalize (dims n mbr_a mbr_b) as l.
      induction l as [| e l IHl]; intros [| k] Hk; cbn in Hk; try discriminate.
      - injection Hk as ->. destruct l; reflexivity.
      - cbn [firstn app]. change (firstn (S k) l) with (firstn (S k) l).
        f_equal. apply IHl, Hk. }
    rewrite E, compensation_snoc. reflexivity.
Qed.

(** The spec's scenario, A = [0,10] x [0,10] and B = [5,15] x [5,15]:
    delta 125, union area 225. *)
Lemma rtree_area_increase_compensation_witness :
  (16 * 2 <= length (square_key 0 10))%nat
  /\ (16 * 2 <= length (square_key 5 15))%nat
  /\ rtree_area_increase None (square_key 0 10) (square_key 5 15) 32
     = Returns (Dbl.of_Z 125, Dbl.of_Z 225).
Proof.
  assert (Ha : (16 * 2 <= length (square_key 0 10))%nat) by (vm_compute; lia).
  assert (Hb : (16 * 2 <= length (square_key 5 15))%nat) by (vm_compute; lia).
  split; [exact Ha | split; [exact Hb |]].
  destruct (rtree_area_increase_compensation None 2 _ _ Ha Hb) as [H _].
  change (16 * Z.of_nat 2)%Z with 32%Z in H. rewrite H.
  vm_compute. reflexivity.
Defined.

(** C2, as the code has it: with the same key [K] of non-zero spans on both
    sides, the union-area output is the product [P] of [K]'s spans, and
    delta is [P], except that it is 0 when [P] is exactly 1.0 and NaN when
    [P] is NaN. *)
Theorem rtree_area_increase_same_key (srs : srs_ptr) (n : nat) (K : list uchar) :
  (16 * n <= length K)%nat ->
  forallb nonzero_span (dims n K K) = true ->
  rtree_area_increase srs K K (16 * Z.of_nat n)
  = Returns
      (if Dbl.isnan (product a_span (dims n K K)) then Dbl.nan
       else if product a_span (dims n K K) == Dbl.one then Dbl.zero
       else product a_span (dims n K K),
       product a_span (dims n K K)).
Proof.
  intros HK Hnz.
  rewrite (area_increase_dims srs n K K HK HK). unfold delta.
  destruct (same_key_products _ (dims_same_key n K) Hnz) as (HA & HU & HC).
  rewrite HA, HU.
  destruct (Dbl.isnan (product a_span (dims n K K))) eqn:N.
  - rewrite (DblFacts.eqb_self_nan _ N). cbn [andb].
    destruct (product a_span (dims n K K)); try discriminate. reflexivity.
  - rewrite (DblFacts.eqb_refl _ N), (HC eq_refl). cbn [andb]. unfold Dbl.neb.
    destruct (product a_span (dims n K K) == Dbl.one) eqn:E; cbn [negb].
    + rewrite (DblFacts.eqb_one _ E). vm_compute. reflexivity.
    + reflexivity.
Qed.

Lemma rtree_area_increase_same_key_witness :
  (16 * 2 <= length (square_key 0 10))%nat
  /\ forallb nonzero_span (dims 2 (square_key 0 10) (square_key 0 10)) = true
  /\ rtree_area_increase None (square_key 0 10) (square_key 0 10) 32
     = Returns (Dbl.of_Z 100, Dbl.of_Z 100).
Proof.
  assert (HK : (16 * 2 <= length (square_key 0 10))%nat) by (vm_compute; lia).
  assert (Hnz : forallb nonzero_span (dims 2 (square_key 0 10) (square_key 0 10)) = true)
    by (vm_compute; reflexivity).
  split; [exact HK | split; [exact Hnz |]].
  pose proof (rtree_area_increase_same_key None 2 _ HK Hnz) as H.
  change (16 * Z.of_nat 2)%Z with 32%Z in H. rewrite H.
  vm_compute. reflexivity.
Defined.

(** C2 as stated fails: the key of the square [0,10] x [0,10] has spans 10
    and 10, and the delta of the key against itself is 100, not 0. *)
Lemma rtree_area_increase_same_key_not_zero :
  forallb nonzero_span (dims 2 (square_key 0 10) (square_key 0 10)) = true
  /\ rtree_area_increase None (square_key 0 10) (square_key 0 10) 32
     = Returns (Dbl.of_Z 100, Dbl.of_Z 100)
  /\ (Dbl.of_Z 100 == Dbl.zero) = false.
Proof. vm_compute. repeat split. Qed.

(** A product of spans that underflows is 0, and so is the delta: the
    key of the square of side 2^-600. *)
Example rtree_area_increase_same_key_underflow :
  rtree_area_increase None
    (encode_key [(Dbl.zero, S754_finite false (2 ^ 52) (-652));
                 (Dbl.zero, S754_finite false (2 ^ 52) (-652))])
    (encode_key [(Dbl.zero, S754_finite false (2 ^ 52) (-652));
                 (Dbl.zero, S754_finite false (2 ^ 52) (-652))]) 32
  = Returns (Dbl.zero, Dbl.zero).
Proof. vm_compute. reflexivity. Qed.

End RawKeyClaims.


Section OverlapClaims.

Import RawKey RawKeySpec RawKeyFacts.

Lemma product_ext (f g : dim -> double) (ds : list dim) :
  Forall (fun d => f d = g d) ds -> product f ds = product g ds.
Proof.
  unfold product. generalize Dbl.one as acc.
  induction ds as [| d ds IH]; intros acc H; [reflexivity |].
  inversion H as [| ? ? Hd Hds]; subst. cbn [fold_left].
  rewrite Hd. apply IH, Hds.
Qed.

(** Where [A]'s interval lies inside [B]'s, the overlap interval is [A]'s. *)
Lemma within_overlap (d : dim) :
  a_within_b d = true ->
  overlap_lo d = amin d /\ overlap_hi d = amax d /\ disjoint_on d = false.
Proof.
  unfold a_within_b. intros H.
  apply andb_true_iff in H as [H Hhi]. apply andb_true_iff in H as [Hlo Hord].
  assert (Elo : overlap_lo d = amin d).
  { unfold overlap_lo, Dbl.std_max. rewrite (DblFacts.leb_not_ltb _ _ Hlo). reflexivity. }
  assert (Ehi : overlap_hi d = amax d).
  { unfold overlap_hi, Dbl.std_min. rewrite (DblFacts.leb_not_ltb _ _ Hhi). reflexivity. }
  repeat split; try assumption.
  unfold disjoint_on. rewrite Elo, Ehi. apply DblFacts.leb_not_gtb, Hord.
Qed.

Lemma within_all (ds : list dim) :
  forallb a_within_b ds = true ->
  existsb disjoint_on ds = false
  /\ Forall (fun d => overlap_hi d - overlap_lo d = a_span d) ds.
Proof.
  induction ds as [| d ds IH]; cbn [forallb existsb]; intros H.
  - split; [reflexivity | constructor].
  - apply andb_true_iff in H as [Hd Hds].
    destruct (within_overlap d Hd) as (Elo & Ehi & Edis).
    destruct (IH Hds) as [Hex Hall].
    rewrite Edis, Hex. split; [reflexivity |].
    constructor; [| assumption].
    rewrite Elo, Ehi. reflexivity.
Qed.

(** C5: on keys of [n] dimension pairs, [rtree_area_overlapping] returns 0
    when some dimension has max(amin,bmin) > min(amax,bmax), and the
    product of the overlap spans min(amax,bmax) - max(amin,bmin) otherwise;
    when on every dimension [A]'s interval lies inside [B]'s (bmin <= amin
    <= amax <= bmax) that is the product of [A]'s spans. *)
Theorem rtree_area_overlapping_product (srs : srs_ptr) (n : nat)
    (mbr_a mbr_b : list uchar) :
  (16 * n <= length mbr_a)%nat -> (16 * n <= length mbr_b)%nat ->
  rtree_area_overlapping srs mbr_a mbr_b (16 * Z.of_nat n)
  = Returns
      (if existsb
            (fun d => Dbl.std_max (amin d) (bmin d) > Dbl.std_min (amax d) (bmax d))
            (dims n mbr_a mbr_b)
       then Dbl.zero
       else product
              (fun d => Dbl.std_min (amax d) (bmax d) - Dbl.std_max (amin d) (bmin d))
              (dims n mbr_a mbr_b))
  /\ (forallb a_within_b (dims n mbr_a mbr_b) = true ->
      rtree_area_overlapping srs mbr_a mbr_b (16 * Z.of_nat n)
      = Returns (product (fun d => amax d - amin d) (dims n mbr_a mbr_b))).
Proof.
  intros Ha Hb. rewrite (area_overlapping_dims srs n mbr_a mbr_b Ha Hb).
  split; [reflexivity |].
  intros Hin. destruct (within_all _ Hin) as [Hex Hall].
  unfold overlapArea. rewrite Hex. f_equal.
  apply product_ext, Hall.
Qed.

(** A = [5,10] x [5,10] inside B = [0,15] x [0,15]: the overlap is the
    area of A, 25. *)
Lemma rtree_area_overlapping_product_witness :
  (16 * 2 <= length (square_key 5 10))%nat
  /\ (16 * 2 <= length (square_key 0 15))%nat
  /\ forallb a_within_b (dims 2 (square_key 5 10) (square_key 0 15)) = true
  /\ rtree_area_overlapping None (square_key 5 10) (square_key 0 15) 32
     = Returns (Dbl.of_Z 25).
Proof.
  assert (Ha : (16 * 2 <= length (square_key 5 10))%nat) by (vm_compute; lia).
  assert (Hb : (16 * 2 <= length (square_key 0 15))%nat) by (vm_compute; lia).
  assert (Hin : forallb a_within_b (dims 2 (square_key 5 10) (square_key 0 15)) = true)
    by (vm_compute; reflexivity).
  split; [exact Ha | split; [exact Hb | split; [exact Hin |]]].
  destruct (rtree_area_overlapping_product None 2 _ _ Ha Hb) as [_ H].
  specialize (H Hin). change (16 * Z.of_nat 2)%Z with 32%Z in H. rewrite H.
  vm_compute. reflexivity.
Defined.

(** Keys that are disjoint on the second axis overlap in nothing, and a
    stored pair that is reversed is not an interval: the metric is 0 for
    it, whatever the other key. *)
Example rtree_area_overlapping_disjoint :
  rtree_area_overlapping None
    (encode_key [(Dbl.of_Z 0, Dbl.of_Z 10); (Dbl.of_Z 0, Dbl.of_Z 10)])
    (encode_key [(Dbl.of_Z 5, Dbl.of_Z 15); (Dbl.of_Z 20, Dbl.of_Z 30)]) 32
  = Returns Dbl.zero.
Proof. vm_compute. reflexivity. Qed.

(** The early return comes before any further read: keys of one dimension
    pair, disjoint on it, give 0 even when [mbr_len] announces two. *)
Example rtree_area_overlapping_returns_at_once :
  rtree_area_overlapping None
    (encode_key [(Dbl.of_Z 0, Dbl.of_Z 1)]) (encode_key [(Dbl.of_Z 5, Dbl.of_Z 6)]) 32
  = Returns Dbl.zero
  /\ rtree_area_overlapping None
       (encode_key [(Dbl.of_Z 0, Dbl.of_Z 9)]) (encode_key [(Dbl.of_Z 5, Dbl.of_Z 6)]) 32
     = OutOfBounds.
Proof. vm_compute. split; reflexivity. Qed.

Example rtree_area_overlapping_reversed :
  rtree_area_overlapping None
    (encode_key [(Dbl.of_Z 5, Dbl.of_Z 3)]) (encode_key [(Dbl.of_Z 0, Dbl.of_Z 10)]) 16
  = Returns Dbl.zero.
Proof. vm_compute. reflexivity. Qed.

End OverlapClaims.


(** * The rectangle predicates *)

Section PredicateClaims.

Lemma geographic_when_not_cartesian (s : Spatial_reference_system) :
  is_cartesian s = false -> is_geographic s = true.
Proof. unfold is_cartesian, is_geographic. destruct (srs_kind s); [discriminate | reflexivity]. Qed.

Lemma dbug_assert_true (bld : build) : DBUG_ASSERT bld true = Returns tt.
Proof. destruct bld; reflexivity. Qed.

(** C1: [mbr_intersect_cmp] returns true for every reference system (null
    included) and every pair of rectangles. The separating-axis condition
    is never computed into the result: a release build does not evaluate
    it, and a debug build only asserts it, returning true when it holds
    and stopping on the assertion when it does not. *)
Theorem mbr_intersect_cmp_always_true (srs : srs_ptr) (a b : rtr_mbr_t) :
  mbr_intersect_cmp Release srs a b = Returns true
  /\ mbr_intersect_cmp Debug srs a b
     = if ((xmin b <= xmax a) || (xmax b >= xmin a))
          && ((ymin b <= ymax a) || (ymax b >= ymin a))
       then Returns true
       else AssertionFailure.
Proof.
  split; [reflexivity |].
  unfold mbr_intersect_cmp, DBUG_ASSERT.
  destruct (((xmin b <= xmax a) || (xmax b >= xmin a))
            && ((ymin b <= ymax a) || (ymax b >= ymin a))); reflexivity.
Qed.

(** On rectangles that satisfy the invariant the asserted condition
    holds, so a debug build returns true as well. *)
Lemma mbr_intersect_cmp_valid (bld : build) (srs : srs_ptr) (a b : rtr_mbr_t) :
  valid_mbr a = true -> valid_mbr b = true ->
  mbr_intersect_cmp bld srs a b = Returns true.
Proof.
  unfold valid_mbr. intros Ha Hb.
  apply andb_true_iff in Ha as [Hax Hay]. apply andb_true_iff in Hb as [Hbx Hby].
  unfold mbr_intersect_cmp.
  rewrite (DblFacts.ordered_axis_assertion _ _ _ _ Hax Hbx).
  rewrite (DblFacts.ordered_axis_assertion _ _ _ _ Hay Hby).
  cbn [andb]. rewrite dbug_assert_true. reflexivity.
Qed.

(** Far-apart rectangles still intersect, and are never disjoint. *)
Example mbr_intersect_cmp_far_apart :
  mbr_intersect_cmp Release None
    (Mbr (Dbl.of_Z 0) (Dbl.of_Z 1) (Dbl.of_Z 0) (Dbl.of_Z 1))
    (Mbr (Dbl.of_Z 50) (Dbl.of_Z 60) (Dbl.of_Z 50) (Dbl.of_Z 60))
  = Returns true
  /\ mbr_disjoint_cmp Debug None
       (Mbr (Dbl.of_Z 0) (Dbl.of_Z 1) (Dbl.of_Z 0) (Dbl.of_Z 1))
       (Mbr (Dbl.of_Z 50) (Dbl.of_Z 60) (Dbl.of_Z 50) (Dbl.of_Z 60))
     = Returns false.
Proof. vm_compute. split; reflexivity. Qed.

(** C4: when covered-by on the min/max-normalized boxes answers [r],
    [mbr_within_cmp] returns [r] inverted exactly when [A]'s stored bounds
    are reversed on both axes and [A] differs from [B] in some stored
    coordinate, and [r] itself otherwise; in particular it returns [r]
    when [A] equals [B] coordinate for coordinate. *)
Theorem mbr_within_cmp_inverts (lib : Gis) (bld : build) (srs : srs_ptr)
    (a b : rtr_mbr_t) (r : bool) :
  covered_by_normalized lib srs a b = Some r ->
  mbr_within_cmp lib bld srs a b
  = Returns (if reversed_on_both_axes a && negb (same_stored_coordinates a b)
             then negb r else r)
  /\ (same_stored_coordinates a b = true -> mbr_within_cmp lib bld srs a b = Returns r).
Proof.
  intros Hr.
  assert (E : mbr_within_cmp lib bld srs a b
              = Returns (if reversed_on_both_axes a && negb (same_stored_coordinates a b)
                         then negb r else r)).
  { unfold covered_by_normalized, model_of, model_box, normalized, null_or_cartesian,
      major_or_zero, minor_or_zero, to_model in Hr.
    unfold mbr_within_cmp, reversed_on_both_axes, same_stored_coordinates.
    destruct srs as [s |]; cbn [xmin xmax ymin ymax] in Hr.
    - destruct (is_cartesian s) eqn:C.
      + rewrite Hr. reflexivity.
      + rewrite (geographic_when_not_cartesian s C), dbug_assert_true. cbn [bind].
        rewrite Hr. reflexivity.
    - rewrite Hr. reflexivity. }
  split; [exact E |].
  intros Hsame. rewrite E, Hsame. cbn [negb]. rewrite andb_false_r. reflexivity.
Qed.

(** The literal case of the specification: A stored as (xmin 10, xmax 0,
    ymin 10, ymax 0) against B = [0,10] x [0,10] is inverted to false;
    A against itself is not inverted. *)
Lemma mbr_within_cmp_inverts_witness :
  covered_by_normalized (planar_gis (Box (Point Dbl.zero Dbl.zero) (Point Dbl.zero Dbl.zero)))
    None
    (Mbr (Dbl.of_Z 10) (Dbl.of_Z 0) (Dbl.of_Z 10) (Dbl.of_Z 0))
    (Mbr (Dbl.of_Z 0) (Dbl.of_Z 10) (Dbl.of_Z 0) (Dbl.of_Z 10)) = Some true
  /\ mbr_within_cmp (planar_gis (Box (Point Dbl.zero Dbl.zero) (Point Dbl.zero Dbl.zero)))
       Release None
       (Mbr (Dbl.of_Z 10) (Dbl.of_Z 0) (Dbl.of_Z 10) (Dbl.of_Z 0))
       (Mbr (Dbl.of_Z 0) (Dbl.of_Z 10) (Dbl.of_Z 0) (Dbl.of_Z 10)) = Returns false
  /\ same_stored_coordinates
       (Mbr (Dbl.of_Z 10) (Dbl.of_Z 0) (Dbl.of_Z 10) (Dbl.of_Z 0))
       (Mbr (Dbl.of_Z 10) (Dbl.of_Z 0) (Dbl.of_Z 10) (Dbl.of_Z 0)) = true
  /\ mbr_within_cmp (planar_gis (Box (Point Dbl.zero Dbl.zero) (Point Dbl.zero Dbl.zero)))
       Release None
       (Mbr (Dbl.of_Z 10) (Dbl.of_Z 0) (Dbl.of_Z 10) (Dbl.of_Z 0))
       (Mbr (Dbl.of_Z 10) (Dbl.of_Z 0) (Dbl.of_Z 10) (Dbl.of_Z 0)) = Returns true.
Proof.
  assert (H1 : covered_by_normalized
                 (planar_gis (Box (Point Dbl.zero Dbl.zero) (Point Dbl.zero Dbl.zero)))
                 None
                 (Mbr (Dbl.of_Z 10) (Dbl.of_Z 0) (Dbl.of_Z 10) (Dbl.of_Z 0))
                 (Mbr (Dbl.of_Z 0) (Dbl.of_Z 10) (Dbl.of_Z 0) (Dbl.of_Z 10)) = Some true)
    by (vm_compute; reflexivity).
  assert (H2 : covered_by_normalized
                 (planar_gis (Box (Point Dbl.zero Dbl.zero) (Point Dbl.zero Dbl.zero)))
                 None
                 (Mbr (Dbl.of_Z 10) (Dbl.of_Z 0) (Dbl.of_Z 10) (Dbl.of_Z 0))
                 (Mbr (Dbl.of_Z 10) (Dbl.of_Z 0) (Dbl.of_Z 10) (Dbl.of_Z 0)) = Some true)
    by (vm_compute; reflexivity).
  assert (H3 : same_stored_coordinates
                 (Mbr (Dbl.of_Z 10) (Dbl.of_Z 0) (Dbl.of_Z 10) (Dbl.of_Z 0))
                 (Mbr (Dbl.of_Z 10) (Dbl.of_Z 0) (Dbl.of_Z 10) (Dbl.of_Z 0)) = true)
    by (vm_compute; reflexivity).
  split; [exact H1 | split; [| split; [exact H3 |]]].
  - destruct (mbr_within_cmp_inverts _ Release None _ _ true H1) as [E _].
    rewrite E. vm_compute. reflexivity.
  - destruct (mbr_within_cmp_inverts _ Release None _ _ true H2) as [_ E].
    exact (E H3).
Defined.

(** When covered-by throws, the result stays false in a release build and
    the assertion in the handler stops a debug build. *)
Lemma mbr_within_cmp_caught (lib : Gis) (srs : srs_ptr) (a b : rtr_mbr_t) :
  covered_by_normalized lib srs a b = None ->
  mbr_within_cmp lib Release srs a b = Returns false
  /\ mbr_within_cmp lib Debug srs a b = AssertionFailure.
Proof.
  intros Hr.
  unfold covered_by_normalized, model_of, model_box, normalized, null_or_cartesian,
    major_or_zero, minor_or_zero, to_model in Hr.
  unfold mbr_within_cmp.
  destruct srs as [s |]; cbn [xmin xmax ymin ymax] in Hr.
  - destruct (is_cartesian s) eqn:C.
    + rewrite Hr. split; reflexivity.
    + rewrite (geographic_when_not_cartesian s C). cbn [DBUG_ASSERT bind].
      rewrite Hr. split; reflexivity.
  - rewrite Hr. split; reflexivity.
Qed.

End PredicateClaims.


(** * Merge and area *)

Section MergeClaims.

Lemma finite_or_max (area : double) :
  Dbl.isfinite (if negb (Dbl.isfinite area) then Dbl.max_double else area) = true.
Proof. destruct (Dbl.isfinite area) eqn:F; cbn [negb]; [exact F | reflexivity]. Qed.

(** A release build always leaves the [try] block with some area. *)
Lemma join_area_try_release (lib : Gis) (srs : srs_ptr) (a b : coords) :
  exists area, join_area_try lib Release srs a b = Returns area.
Proof.
  unfold join_area_try, caught. cbn [DBUG_ASSERT bind].
  destruct srs as [s |]; [destruct (is_cartesian s) |].
  - destruct (expand lib cartesian _ _) as [bx |]; [| eexists; reflexivity].
    destruct (area_cartesian lib bx); eexists; reflexivity.
  - destruct (expand lib geographic _ _) as [bx |]; [| eexists; reflexivity].
    destruct (area_geographic lib _ _ bx); eexists; reflexivity.
  - destruct (expand lib cartesian _ _) as [bx |]; [| eexists; reflexivity].
    destruct (area_cartesian lib bx); eexists; reflexivity.
Qed.

(** C6: [mbr_join_area] returns a finite double for every reference system
    and pair of rectangles. A release build always returns: the area
    computed for the joined box when that is finite, and the largest finite
    double when it is NaN or an infinity. In any build, whatever is
    returned is finite. *)
Theorem mbr_join_area_finite (lib : Gis) (srs : srs_ptr) (a b : coords) (n_dim : Z) :
  (exists area,
      join_area_try lib Release srs a b = Returns area
      /\ mbr_join_area lib Release srs a b n_dim
         = Returns (if Dbl.isfinite area then area else Dbl.max_double))
  /\ Dbl.isfinite Dbl.max_double = true
  /\ Dbl.max_double = S754_finite false (2 ^ 53 - 1) 971
  /\ forall (bld : build) (v : double),
       mbr_join_area lib bld srs a b n_dim = Returns v -> Dbl.isfinite v = true.
Proof.
  split; [| split; [reflexivity | split; [reflexivity |]]].
  - destruct (join_area_try_release lib srs a b) as [area E].
    exists area. split; [exact E |].
    unfold mbr_join_area. cbn [DBUG_ASSERT bind]. rewrite E. cbn [bind].
    destruct (Dbl.isfinite area); reflexivity.
  - intros bld v. unfold mbr_join_area.
    destruct (DBUG_ASSERT bld (n_dim =? 2)%Z); cbn [bind]; try discriminate.
    destruct (join_area_try lib bld srs a b) as [area | |]; cbn [bind]; try discriminate.
    intros H. injection H as <-. apply finite_or_max.
Qed.

(** Joining the rectangle that covers the entire domain: the planar area
    overflows to infinity, and the largest finite double comes back. *)
Lemma mbr_join_area_finite_witness :
  mbr_join_area (planar_gis (Box (Point Dbl.zero Dbl.zero) (Point Dbl.zero Dbl.zero)))
    Debug None full_domain full_domain 2 = Returns Dbl.max_double
  /\ join_area_try (planar_gis (Box (Point Dbl.zero Dbl.zero) (Point Dbl.zero Dbl.zero)))
       Debug None full_domain full_domain = Returns (S754_infinity false)
  /\ Dbl.isfinite Dbl.max_double = true.
Proof.
  assert (H : mbr_join_area
                (planar_gis (Box (Point Dbl.zero Dbl.zero) (Point Dbl.zero Dbl.zero)))
                Debug None full_domain full_domain 2 = Returns Dbl.max_double)
    by (vm_compute; reflexivity).
  split; [exact H | split; [vm_compute; reflexivity |]].
  destruct (mbr_join_area_finite
              (planar_gis (Box (Point Dbl.zero Dbl.zero) (Point Dbl.zero Dbl.zero)))
              None full_domain full_domain 2) as (_ & _ & _ & F).
  exact (F Debug Dbl.max_double H).
Defined.

(** Both orders of [std::min] (and of [std::max]) give equal coordinates
    once converted back, under regular conversions. *)
Lemma joined_min_swap (srs : srs_ptr) (u v : double) :
  regular_conversions srs -> Dbl.isnan u = false -> Dbl.isnan v = false ->
  (from_model srs (Dbl.std_min (to_model srs u) (to_model srs v))
   == from_model srs (Dbl.std_min (to_model srs v) (to_model srs u))) = true.
Proof.
  intros Hreg Nu Nv. unfold regular_conversions, from_model, to_model in *.
  destruct srs as [s |]; [destruct (is_cartesian s) |].
  - apply DblFacts.std_min_swap; assumption.
  - destruct Hreg as [Hto Hfrom]. apply Hfrom, DblFacts.std_min_swap; apply Hto; assumption.
  - apply DblFacts.std_min_swap; assumption.
Qed.

Lemma joined_max_swap (srs : srs_ptr) (u v : double) :
  regular_conversions srs -> Dbl.isnan u = false -> Dbl.isnan v = false ->
  (from_model srs (Dbl.std_max (to_model srs u) (to_model srs v))
   == from_model srs (Dbl.std_max (to_model srs v) (to_model srs u))) = true.
Proof.
  intros Hreg Nu Nv. unfold regular_conversions, from_model, to_model in *.
  destruct srs as [s |]; [destruct (is_cartesian s) |].
  - apply DblFacts.std_max_swap; assumption.
  - destruct Hreg as [Hto Hfrom]. apply Hfrom, DblFacts.std_max_swap; apply Hto; assumption.
  - apply DblFacts.std_max_swap; assumption.
Qed.

(** The join, with the library's [expand] as specified. *)
Lemma mbr_join_specified (lib : Gis) (bld : build) (srs : srs_ptr) (a b : coords) :
  expand_as_specified lib ->
  mbr_join lib bld srs a b 2
  = Returns
      (Coords
         (from_model srs (Dbl.std_min (to_model srs (c0 a)) (to_model srs (c0 b))))
         (from_model srs (Dbl.std_max (to_model srs (c1 a)) (to_model srs (c1 b))))
         (from_model srs (Dbl.std_min (to_model srs (c2 a)) (to_model srs (c2 b))))
         (from_model srs (Dbl.std_max (to_model srs (c3 a)) (to_model srs (c3 b))))).
Proof.
  intros Hexp. unfold mbr_join.
  change (2 =? 2)%Z with true. rewrite dbug_assert_true. cbn [bind].
  unfold from_model, to_model.
  destruct srs as [s |]; [destruct (is_cartesian s) eqn:C |].
  - rewrite Hexp. reflexivity.
  - rewrite (geographic_when_not_cartesian s C), dbug_assert_true. cbn [bind].
    rewrite Hexp. reflexivity.
  - rewrite Hexp. reflexivity.
Qed.

(** C9: with [expand] the axis-wise min of mins and max of maxes, for every
    reference system with regular conversions and every two valid
    rectangles, [mbr_join(A, B)] and [mbr_join(B, A)] return rectangles
    whose coordinates are equal, and [mbr_join(A, B)] is the axis-wise min
    of mins and max of maxes of the two inputs, taken in the unit of the
    coordinate model and converted back. *)
Theorem mbr_join_commutes (lib : Gis) (bld : build) (srs : srs_ptr) (a b : coords) :
  expand_as_specified lib -> regular_conversions srs ->
  ordered a = true -> ordered b = true ->
  exists ab ba : coords,
    mbr_join lib bld srs a b 2 = Returns ab
    /\ mbr_join lib bld srs b a 2 = Returns ba
    /\ coords_eqb ab ba = true
    /\ ab = Coords
              (from_model srs (Dbl.std_min (to_model srs (c0 a)) (to_model srs (c0 b))))
              (from_model srs (Dbl.std_max (to_model srs (c1 a)) (to_model srs (c1 b))))
              (from_model srs (Dbl.std_min (to_model srs (c2 a)) (to_model srs (c2 b))))
              (from_model srs (Dbl.std_max (to_model srs (c3 a)) (to_model srs (c3 b)))).
Proof.
  intros Hexp Hreg Ha Hb.
  unfold ordered in Ha, Hb.
  apply andb_true_iff in Ha as [Hax Hay]. apply andb_true_iff in Hb as [Hbx Hby].
  destruct (DblFacts.leb_not_nan _ _ Hax) as [Na0 Na1].
  destruct (DblFacts.leb_not_nan _ _ Hay) as [Na2 Na3].
  destruct (DblFacts.leb_not_nan _ _ Hbx) as [Nb0 Nb1].
  destruct (DblFacts.leb_not_nan _ _ Hby) as [Nb2 Nb3].
  eexists. eexists.
  split; [apply mbr_join_specified, Hexp |].
  split; [apply mbr_join_specified, Hexp |].
  split; [| reflexivity].
  unfold coords_eqb. cbn [c0 c1 c2 c3].
  rewrite (joined_min_swap srs _ _ Hreg Na0 Nb0).
  rewrite (joined_max_swap srs _ _ Hreg Na1 Nb1).
  rewrite (joined_min_swap srs _ _ Hreg Na2 Nb2).
  rewrite (joined_max_swap srs _ _ Hreg Na3 Nb3).
  reflexivity.
Qed.

Lemma planar_gis_expand (g : box) : expand_as_specified (planar_gis g).
Proof. intros cs a b. reflexivity. Qed.

Lemma radian_srs_regular : regular_conversions (Some radian_srs).
Proof. cbn. split; intros; assumption. Qed.

(** The scenario of the specification, under a geographic reference
    system: A = [0,10] x [0,10] and B = [5,15] x [5,15] join to
    [0,15] x [0,15] in both orders. *)
Lemma mbr_join_commutes_witness :
  ordered (Coords (Dbl.of_Z 0) (Dbl.of_Z 10) (Dbl.of_Z 0) (Dbl.of_Z 10)) = true
  /\ ordered (Coords (Dbl.of_Z 5) (Dbl.of_Z 15) (Dbl.of_Z 5) (Dbl.of_Z 15)) = true
  /\ exists ab ba : coords,
       mbr_join (planar_gis (Box (Point Dbl.zero Dbl.zero) (Point Dbl.zero Dbl.zero)))
         Debug (Some radian_srs)
         (Coords (Dbl.of_Z 0) (Dbl.of_Z 10) (Dbl.of_Z 0) (Dbl.of_Z 10))
         (Coords (Dbl.of_Z 5) (Dbl.of_Z 15) (Dbl.of_Z 5) (Dbl.of_Z 15)) 2 = Returns ab
       /\ mbr_join (planar_gis (Box (Point Dbl.zero Dbl.zero) (Point Dbl.zero Dbl.zero)))
            Debug (Some radian_srs)
            (Coords (Dbl.of_Z 5) (Dbl.of_Z 15) (Dbl.of_Z 5) (Dbl.of_Z 15))
            (Coords (Dbl.of_Z 0) (Dbl.of_Z 10) (Dbl.of_Z 0) (Dbl.of_Z 10)) 2 = Returns ba
       /\ coords_eqb ab ba = true
       /\ ab = Coords (Dbl.of_Z 0) (Dbl.of_Z 15) (Dbl.of_Z 0) (Dbl.of_Z 15).
Proof.
  assert (Ha : ordered (Coords (Dbl.of_Z 0) (Dbl.of_Z 10) (Dbl.of_Z 0) (Dbl.of_Z 10)) = true)
    by (vm_compute; reflexivity).
  assert (Hb : ordered (Coords (Dbl.of_Z 5) (Dbl.of_Z 15) (Dbl.of_Z 5) (Dbl.of_Z 15)) = true)
    by (vm_compute; reflexivity).
  split; [exact Ha | split; [exact Hb |]].
  destruct (mbr_join_commutes _ Debug (Some radian_srs) _ _
              (planar_gis_expand (Box (Point Dbl.zero Dbl.zero) (Point Dbl.zero Dbl.zero)))
              radian_srs_regular Ha Hb) as (ab & ba & H1 & H2 & H3 & H4).
  exists ab, ba. split; [exact H1 | split; [exact H2 | split; [exact H3 |]]].
  rewrite H4. vm_compute. reflexivity.
Defined.

(** The two orders can differ in the sign of a zero, which [==] does not
    see: with xmin +0 on one side and -0 on the other, each order keeps the
    xmin of its first argument. *)
Example mbr_join_zero_signs :
  mbr_join (planar_gis empty_box) Release None
    (Coords (S754_zero false) Dbl.one Dbl.zero Dbl.one)
    (Coords (S754_zero true) Dbl.one Dbl.zero Dbl.one) 2
  = Returns (Coords (S754_zero false) Dbl.one Dbl.zero Dbl.one)
  /\ mbr_join (planar_gis empty_box) Release None
       (Coords (S754_zero true) Dbl.one Dbl.zero Dbl.one)
       (Coords (S754_zero false) Dbl.one Dbl.zero Dbl.one) 2
     = Returns (Coords (S754_zero true) Dbl.one Dbl.zero Dbl.one).
Proof. vm_compute. split; reflexivity. Qed.

End MergeClaims.


(** * The rectangle of a stored record *)

Section StoreClaims.

(** What the tail of the function returns, when it returns. *)
Lemma finish_mbr_returns (bld : build) (mbr m : coords) :
  finish_mbr bld mbr = Returns m ->
  m = (if Dbl.isnan (c0 mbr) then full_domain else mbr)
  /\ (bld = Debug -> ordered m = true).
Proof.
  unfold finish_mbr, ordered.
  destruct (Dbl.isnan (c0 mbr)); destruct bld; cbn [DBUG_ASSERT bind].
  - destruct (Dbl.isnan (c1 mbr) && Dbl.isnan (c2 mbr) && Dbl.isnan (c3 mbr));
      cbn [bind]; [| discriminate].
    intros H. injection H as <-. split; [reflexivity | intros _; reflexivity].
  - intros H. injection H as <-. split; [reflexivity | discriminate].
  - destruct ((c0 mbr <= c1 mbr) && (c2 mbr <= c3 mbr)) eqn:O; cbn [bind]; [| discriminate].
    intros H. injection H as <-. split; [reflexivity | intros _; exact O].
  - intros H. injection H as <-. split; [reflexivity | discriminate].
Qed.

(** A release build never stops in the tail. *)
Lemma finish_mbr_release (mbr : coords) :
  finish_mbr Release mbr = Returns (if Dbl.isnan (c0 mbr) then full_domain else mbr).
Proof. unfold finish_mbr. destruct (Dbl.isnan (c0 mbr)); reflexivity. Qed.

Lemma uint4korr_ok (p : list uchar) :
  (4 <= length p)%nat -> uint4korr p = Returns (le_combine (firstn 4 p)).
Proof.
  intros H. unfold uint4korr. rewrite (proj2 (Nat.ltb_ge _ _) H). reflexivity.
Qed.

(** A successful call went through the parser, the envelope and the tail. *)
Lemma get_mbr_from_store_success_path (lib : Gis) (bld : build) (srs : srs_ptr)
    (store : list uchar) (size n_dims : Z) (srid_wanted : bool) (r : store_result) :
  get_mbr_from_store lib bld srs store size n_dims srid_wanted = Returns r ->
  status r = 0%Z ->
  exists (g : Geometry lib) (mbr m : coords),
    parse_wkb lib srs (advance 4 store) ((size - 4) mod 2 ^ 64)%Z true = Some (Some g)
    /\ envelope_coords lib srs g = Some mbr
    /\ finish_mbr bld mbr = Returns m
    /\ mbr_out r = Some m.
Proof.
  unfold get_mbr_from_store, caught. intros H Hst.
  destruct (DBUG_ASSERT bld (n_dims =? 2)%Z); cbn [bind] in H; try discriminate.
  match type of H with bind ?m _ = _ => destruct m end; cbn [bind] in H; try discriminate.
  match type of H with bind ?m _ = _ => destruct m as [srid | |] end;
    cbn [bind] in H; try discriminate.
  destruct (parse_wkb lib srs (advance 4 store) ((size - 4) mod 2 ^ 64)%Z true)
    as [[g |] |] eqn:P.
  - match type of H with bind ?m _ = _ => destruct m end; cbn [bind] in H; try discriminate.
    destruct (envelope_coords lib srs g) as [mbr |] eqn:E.
    + destruct (finish_mbr bld mbr) as [m | |] eqn:F; cbn [bind] in H; try discriminate.
      injection H as <-. exists g, mbr, m. repeat split; assumption || reflexivity.
    + destruct (DBUG_ASSERT bld false); cbn [bind] in H; try discriminate.
      injection H as <-. discriminate Hst.
  - injection H as <-. discriminate Hst.
  - destruct (DBUG_ASSERT bld false); cbn [bind] in H; try discriminate.
    injection H as <-. discriminate Hst.
Qed.

Lemma all_nan_c0 (c : coords) : all_nan c = true -> Dbl.isnan (c0 c) = true.
Proof.
  unfold all_nan. intros H.
  apply andb_true_iff in H as [H _]. apply andb_true_iff in H as [H _].
  apply andb_true_iff in H as [H _]. exact H.
Qed.

Lemma ordered_c0 (c : coords) : ordered c = true -> Dbl.isnan (c0 c) = false.
Proof.
  unfold ordered. intros H. apply andb_true_iff in H as [H _].
  exact (proj1 (DblFacts.leb_not_nan _ _ H)).
Qed.

(** The planar stand-in keeps the contract when its geometry does. *)
Lemma planar_gis_envelope_as_asserted (g : box) (store : list uchar) (size : Z) :
  asserted_envelope (coords_of_box g) = true ->
  envelope_as_asserted (planar_gis g) None store size.
Proof.
  intros A geom mbr P E. cbn in P. injection P as <-.
  cbn in E. injection E as <-. exact A.
Qed.

(** C7: under the contract that the source asserts of the envelope it is
    given (all four coordinates NaN when xmin is, ordered otherwise), in a
    debug build and in a release build alike: when [get_mbr_from_store]
    returns status 0, a geometry was decoded and its envelope stored; if
    all the envelope coordinates are NaN the rectangle handed back is the
    full-domain rectangle, with no NaN in it; and the rectangle handed back
    satisfies xmin <= xmax and ymin <= ymax. *)
Theorem get_mbr_from_store_success (lib : Gis) (bld : build) (srs : srs_ptr)
    (store : list uchar) (size n_dims : Z) (srid_wanted : bool) (r : store_result) :
  envelope_as_asserted lib srs store size ->
  get_mbr_from_store lib bld srs store size n_dims srid_wanted = Returns r ->
  status r = 0%Z ->
  exists (g : Geometry lib) (mbr m : coords),
    parse_wkb lib srs (advance 4 store) ((size - 4) mod 2 ^ 64)%Z true = Some (Some g)
    /\ envelope_coords lib srs g = Some mbr
    /\ mbr_out r = Some m
    /\ (all_nan mbr = true -> m = full_domain /\ some_nan m = false)
    /\ ordered m = true.
Proof.
  intros Hc H Hst.
  destruct (get_mbr_from_store_success_path _ _ _ _ _ _ _ _ H Hst)
    as (g & mbr & m & P & E & F & O).
  exists g, mbr, m.
  split; [exact P | split; [exact E | split; [exact O | split]]].
  - intros N. destruct (finish_mbr_returns _ _ _ F) as [-> _].
    rewrite (all_nan_c0 _ N). split; reflexivity.
  - destruct (finish_mbr_returns _ _ _ F) as [-> _].
    specialize (Hc g mbr P E). unfold asserted_envelope in Hc.
    destruct (Dbl.isnan (c0 mbr)); [reflexivity | exact Hc].
Qed.

(** A record whose geometry is empty, in a release build: status 0 and the
    full-domain rectangle, which is ordered and holds no NaN. *)
Lemma get_mbr_from_store_success_witness :
  envelope_as_asserted (planar_gis empty_box) None sample_store 12
  /\ get_mbr_from_store (planar_gis empty_box) Release None sample_store 12 2 true
     = Returns (StoreResult 0 (Some full_domain) (Some 4326%Z))
  /\ exists m : coords,
       Some full_domain = Some m /\ m = full_domain /\ some_nan m = false
       /\ ordered m = true.
Proof.
  assert (C : envelope_as_asserted (planar_gis empty_box) None sample_store 12)
    by (apply planar_gis_envelope_as_asserted; vm_compute; reflexivity).
  assert (H : get_mbr_from_store (planar_gis empty_box) Release None sample_store 12 2 true
              = Returns (StoreResult 0 (Some full_domain) (Some 4326%Z)))
    by (vm_compute; reflexivity).
  split; [exact C | split; [exact H |]].
  destruct (get_mbr_from_store_success _ _ _ _ _ _ _ _ C H eq_refl)
    as (g & mbr & m & P & E & O & N & Ord).
  exists m. split; [exact O |].
  assert (A : all_nan mbr = true).
  { cbn in E. injection E as <-. cbn in P. injection P as <-. vm_compute. reflexivity. }
  destruct (N A) as [N1 N2].
  split; [exact N1 | split; [exact N2 | exact Ord]].
Defined.

(** The same holds of an ordinary geometry in a debug build. *)
Example get_mbr_from_store_ordinary :
  get_mbr_from_store
    (planar_gis (Box (Point (Dbl.of_Z 0) (Dbl.of_Z 5)) (Point (Dbl.of_Z 10) (Dbl.of_Z 15))))
    Debug None sample_store 12 2 false
  = Returns (StoreResult 0
               (Some (Coords (Dbl.of_Z 0) (Dbl.of_Z 10) (Dbl.of_Z 5) (Dbl.of_Z 15))) None).
Proof. vm_compute. reflexivity. Qed.

(** C10: with assertions compiled out, only xmin decides the substitution:
    once a geometry is decoded and its envelope stored, the call returns
    status 0 with the full-domain rectangle when xmin is NaN, whatever the
    other three coordinates, and with the envelope unchanged, NaN
    coordinates included, when xmin is not NaN. *)
Theorem get_mbr_from_store_tests_xmin_only (lib : Gis) (srs : srs_ptr)
    (store : list uchar) (size n_dims : Z) (srid_wanted : bool)
    (g : Geometry lib) (mbr : coords) :
  (4 <= length store)%nat ->
  parse_wkb lib srs (advance 4 store) ((size - 4) mod 2 ^ 64)%Z true = Some (Some g) ->
  envelope_coords lib srs g = Some mbr ->
  get_mbr_from_store lib Release srs store size n_dims srid_wanted
  = Returns
      (StoreResult 0
         (Some (if Dbl.isnan (c0 mbr) then full_domain else mbr))
         (if srid_wanted then Some (le_combine (firstn 4 store)) else None)).
Proof.
  intros Hlen P E. unfold get_mbr_from_store.
  cbn [DBUG_ASSERT bind].
  assert (S : (if srid_wanted then v <- uint4korr store ;; Returns (Some v)
               else Returns None)
              = Returns (if srid_wanted then Some (le_combine (firstn 4 store))
                         else None)).
  { destruct srid_wanted; [rewrite (uint4korr_ok _ Hlen) |]; reflexivity. }
  rewrite S. cbn [bind]. rewrite P.
  assert (G : match srs with
              | Some s => if is_cartesian s then Returns tt else Returns tt
              | None => Returns tt
              end = Returns tt).
  { destruct srs as [s |]; [destruct (is_cartesian s) |]; reflexivity. }
  rewrite G. cbn [bind]. rewrite E, finish_mbr_release. reflexivity.
Qed.

(** Only xmax NaN: handed back as it is. Only xmin NaN: the full-domain
    rectangle, although the other coordinates are numbers. *)
Lemma get_mbr_from_store_tests_xmin_only_witness :
  get_mbr_from_store (planar_gis nan_xmax_box) Release None sample_store 12 2 false
  = Returns (StoreResult 0 (Some (Coords Dbl.zero Dbl.nan Dbl.zero Dbl.zero)) None)
  /\ get_mbr_from_store (planar_gis nan_xmin_box) Release None sample_store 12 2 false
     = Returns (StoreResult 0 (Some full_domain) None).
Proof.
  assert (Hlen : (4 <= length sample_store)%nat) by (vm_compute; lia).
  split.
  - exact (get_mbr_from_store_tests_xmin_only (planar_gis nan_xmax_box) None
             sample_store 12 2 false nan_xmax_box
             (Coords Dbl.zero Dbl.nan Dbl.zero Dbl.zero) Hlen eq_refl eq_refl).
  - exact (get_mbr_from_store_tests_xmin_only (planar_gis nan_xmin_box) None
             sample_store 12 2 false nan_xmin_box
             (Coords Dbl.nan Dbl.one Dbl.zero Dbl.one) Hlen eq_refl eq_refl).
Defined.

(** In a debug build the same two records stop on an assertion. *)
Example get_mbr_from_store_debug_stops :
  get_mbr_from_store (planar_gis nan_xmax_box) Debug None sample_store 12 2 false
  = AssertionFailure
  /\ get_mbr_from_store (planar_gis nan_xmin_box) Debug None sample_store 12 2 false
     = AssertionFailure.
Proof. vm_compute. split; reflexivity. Qed.

End StoreClaims.


(** * Further properties of the raw-key metrics *)

Section RawKeyLengths.

Import RawKey RawKeySpec RawKeyFacts.

Lemma doubleget_short (p : list uchar) :
  (length p < 8)%nat -> doubleget p = OutOfBounds.
Proof.
  intros H. unfold doubleget. rewrite (proj2 (Nat.ltb_lt _ _) H). reflexivity.
Qed.

(** A segment shorter than 16 bytes in either key cannot be read. *)
Lemma read_dim_short (ka kb : list uchar) :
  (length ka < 16)%nat \/ (length kb < 16)%nat -> read_dim ka kb = OutOfBounds.
Proof.
  intros H. unfold read_dim, advance.
  destruct (Nat.lt_ge_cases (length ka) 8) as [A8 | A8];
    [rewrite (doubleget_short ka A8); reflexivity |].
  rewrite (doubleget_ok ka A8). cbn [bind].
  destruct (Nat.lt_ge_cases (length kb) 8) as [B8 | B8];
    [rewrite (doubleget_short kb B8); reflexivity |].
  rewrite (doubleget_ok kb B8). cbn [bind].
  destruct (Nat.lt_ge_cases (length ka) 16) as [A16 | A16].
  - rewrite (doubleget_short (skipn 8 ka)) by (rewrite length_skipn; lia). reflexivity.
  - rewrite (doubleget_ok (skipn 8 ka)) by (rewrite length_skipn; lia). cbn [bind].
    rewrite (doubleget_short (skipn 8 kb)) by (rewrite length_skipn; lia). reflexivity.
Qed.

(** The loops count in whole segments: a length inside a segment behaves
    as the end of that segment. *)
Lemma increase_loop_round (n : nat) :
  forall (key_len : Z) (ka kb : list uchar) (st : inc_state),
    (16 * Z.of_nat n - 16 < key_len <= 16 * Z.of_nat n)%Z ->
    increase_loop key_len ka kb st = increase_loop (16 * Z.of_nat n) ka kb st.
Proof.
  induction n as [| n IH]; intros key_len ka kb st H.
  - rewrite !increase_loop_unfold.
    replace (0 <? key_len)%Z with false by (symmetry; apply Z.ltb_ge; lia).
    reflexivity.
  - rewrite (increase_loop_unfold key_len), (increase_loop_unfold (16 * Z.of_nat (S n))).
    replace (0 <? key_len)%Z with true by (symmetry; apply Z.ltb_lt; lia).
    replace (0 <? 16 * Z.of_nat (S n))%Z with true by (symmetry; apply Z.ltb_lt; lia).
    destruct (read_dim ka kb) as [d | |]; try reflexivity.
    rewrite (IH (key_len - keyseg_len)%Z) by (unfold keyseg_len; lia).
    f_equal. unfold keyseg_len. lia.
Qed.

Lemma overlap_loop_round (n : nat) :
  forall (key_len : Z) (ka kb : list uchar) (area : double),
    (16 * Z.of_nat n - 16 < key_len <= 16 * Z.of_nat n)%Z ->
    overlap_loop key_len ka kb area = overlap_loop (16 * Z.of_nat n) ka kb area.
Proof.
  induction n as [| n IH]; intros key_len ka kb area H.
  - rewrite !overlap_loop_unfold.
    replace (0 <? key_len)%Z with false by (symmetry; apply Z.ltb_ge; lia).
    reflexivity.
  - rewrite (overlap_loop_unfold key_len), (overlap_loop_unfold (16 * Z.of_nat (S n))).
    replace (0 <? key_len)%Z with true by (symmetry; apply Z.ltb_lt; lia).
    replace (0 <? 16 * Z.of_nat (S n))%Z with true by (symmetry; apply Z.ltb_lt; lia).
    destruct (read_dim ka kb) as [d | |]; try reflexivity.
    destruct (disjoint_on d); [reflexivity |].
    rewrite (IH (key_len - keyseg_len)%Z) by (unfold keyseg_len; lia).
    f_equal. unfold keyseg_len. lia.
Qed.

Lemma segments_bounds (mbr_len : Z) :
  (0 < mbr_len)%Z ->
  (16 * Z.of_nat (segments mbr_len) - 16 < mbr_len <= 16 * Z.of_nat (segments mbr_len))%Z.
Proof.
  intros H. unfold segments.
  rewrite Z2Nat.id by (apply Z.div_pos; lia).
  pose proof (Z.div_mod (mbr_len + 15) 16 ltac:(lia)) as D.
  pose proof (Z.mod_pos_bound (mbr_len + 15) 16 ltac:(lia)) as B.
  lia.
Qed.

Lemma segments_nonpositive (mbr_len : Z) : (mbr_len <= 0)%Z -> segments mbr_len = 0%nat.
Proof.
  intros H. unfold segments.
  destruct (Z.eq_dec mbr_len 0) as [-> | N]; [reflexivity |].
  assert (L : ((mbr_len + 15) / 16 <= 0)%Z).
  { apply Z.lt_succ_r. apply Z.div_lt_upper_bound; lia. }
  destruct ((mbr_len + 15) / 16)%Z; try reflexivity. lia.
Qed.

Lemma increase_loop_segments (mbr_len : Z) (ka kb : list uchar) (st : inc_state) :
  increase_loop mbr_len ka kb st
  = increase_loop (16 * Z.of_nat (segments mbr_len)) ka kb st.
Proof.
  destruct (Z.lt_ge_cases 0 mbr_len) as [P | N].
  - apply increase_loop_round, segments_bounds, P.
  - rewrite (segments_nonpositive mbr_len N). rewrite !increase_loop_unfold.
    replace (0 <? mbr_len)%Z with false by (symmetry; apply Z.ltb_ge; lia).
    reflexivity.
Qed.

Lemma overlap_loop_segments (mbr_len : Z) (ka kb : list uchar) (area : double) :
  overlap_loop mbr_len ka kb area
  = overlap_loop (16 * Z.of_nat (segments mbr_len)) ka kb area.
Proof.
  destruct (Z.lt_ge_cases 0 mbr_len) as [P | N].
  - apply overlap_loop_round, segments_bounds, P.
  - rewrite (segments_nonpositive mbr_len N). rewrite !overlap_loop_unfold.
    replace (0 <? mbr_len)%Z with false by (symmetry; apply Z.ltb_ge; lia).
    reflexivity.
Qed.

(** A key that ends before the last segment stops the loop of
    [rtree_area_increase] on a read outside the key. *)
Lemma increase_loop_short (n : nat) :
  forall (ka kb : list uchar) (st : inc_state),
    (length ka < 16 * n)%nat \/ (length kb < 16 * n)%nat ->
    increase_loop (16 * Z.of_nat n) ka kb st = OutOfBounds.
Proof.
  induction n as [| n IH]; intros ka kb st H; [lia |].
  rewrite increase_loop_unfold.
  replace (0 <? 16 * Z.of_nat (S n))%Z with true by (symmetry; apply Z.ltb_lt; lia).
  destruct (Nat.lt_ge_cases (length ka) 16) as [A | A];
    [rewrite read_dim_short by (left; exact A); reflexivity |].
  destruct (Nat.lt_ge_cases (length kb) 16) as [B | B];
    [rewrite read_dim_short by (right; exact B); reflexivity |].
  rewrite (read_dim_ok ka kb A B).
  replace (16 * Z.of_nat (S n) - keyseg_len)%Z with (16 * Z.of_nat n)%Z
    by (unfold keyseg_len; lia).
  apply IH. unfold advance. rewrite !length_skipn. lia.
Qed.

(** X1: for every length [mbr_len], positive or not, multiple of 16 or
    not, [rtree_area_increase] works on ceil(mbr_len / 16) dimension pairs:
    when both keys hold that many pairs it returns the delta and the union
    area of those pairs, and when either key is shorter it reads outside
    the key. *)
Theorem rtree_area_increase_any_length (srs : srs_ptr) (mbr_a mbr_b : list uchar)
    (mbr_len : Z) :
  rtree_area_increase srs mbr_a mbr_b mbr_len
  = if (16 * segments mbr_len <=? length mbr_a)%nat
       && (16 * segments mbr_len <=? length mbr_b)%nat
    then Returns (delta (dims (segments mbr_len) mbr_a mbr_b),
                  unionArea (dims (segments mbr_len) mbr_a mbr_b))
    else OutOfBounds.
Proof.
  destruct (Nat.leb_spec (16 * segments mbr_len) (length mbr_a)) as [A | A];
    destruct (Nat.leb_spec (16 * segments mbr_len) (length mbr_b)) as [B | B];
    cbn [andb].
  - rewrite <- (area_increase_dims srs _ _ _ A B).
    unfold rtree_area_increase. rewrite increase_loop_segments. reflexivity.
  - unfold rtree_area_increase.
    rewrite increase_loop_segments, increase_loop_short by (right; exact B). reflexivity.
  - unfold rtree_area_increase.
    rewrite increase_loop_segments, increase_loop_short by (left; exact A). reflexivity.
  - unfold rtree_area_increase.
    rewrite increase_loop_segments, increase_loop_short by (left; exact A). reflexivity.
Qed.

(** X2: with a length that is zero or negative neither metric reads the
    keys: the area increase is 0 with union area 1.0, and the overlap area
    is 1.0. *)
Theorem raw_key_metrics_without_dimension (srs : srs_ptr) (mbr_a mbr_b : list uchar)
    (mbr_len : Z) :
  (mbr_len <= 0)%Z ->
  rtree_area_increase srs mbr_a mbr_b mbr_len = Returns (Dbl.zero, Dbl.one)
  /\ rtree_area_overlapping srs mbr_a mbr_b mbr_len = Returns Dbl.one.
Proof.
  intros H. unfold rtree_area_increase, rtree_area_overlapping.
  rewrite increase_loop_unfold, overlap_loop_unfold.
  replace (0 <? mbr_len)%Z with false by (symmetry; apply Z.ltb_ge; lia).
  split; vm_compute; reflexivity.
Qed.

Lemma raw_key_metrics_without_dimension_witness :
  (-16 <= 0)%Z
  /\ rtree_area_increase None [] [] (-16) = Returns (Dbl.zero, Dbl.one)
  /\ rtree_area_overlapping None [] [] (-16) = Returns Dbl.one.
Proof.
  assert (H : (-16 <= 0)%Z) by lia.
  split; [exact H |].
  exact (raw_key_metrics_without_dimension None [] [] (-16) H).
Defined.

(** A disjoint dimension among the first [j] stops the loop of
    [rtree_area_overlapping], however many more the length announces. *)
Lemma overlap_loop_disjoint (j : nat) :
  forall (n : nat) (ka kb : list uchar) (area : double),
    (j <= n)%nat -> (16 * j <= length ka)%nat -> (16 * j <= length kb)%nat ->
    existsb disjoint_on (dims j ka kb) = true ->
    overlap_loop (16 * Z.of_nat n) ka kb area = Returns (inl Dbl.zero).
Proof.
  induction j as [| j IH]; intros n ka kb area Hn Ha Hb Hex; [discriminate |].
  destruct n as [| n]; [lia |].
  rewrite overlap_loop_unfold.
  replace (0 <? 16 * Z.of_nat (S n))%Z with true by (symmetry; apply Z.ltb_lt; lia).
  rewrite read_dim_ok by lia.
  cbn [dims existsb] in Hex.
  destruct (disjoint_on _); [reflexivity |].
  cbn [orb] in Hex.
  replace (16 * Z.of_nat (S n) - keyseg_len)%Z with (16 * Z.of_nat n)%Z
    by (unfold keyseg_len; lia).
  unfold advance. apply IH; try assumption; try lia; rewrite length_skipn; lia.
Qed.

(** X3: [rtree_area_overlapping] returns 0 as soon as it meets a disjoint
    dimension: when one of the first [j] dimension pairs is disjoint and
    the keys hold those [j] pairs, the result is 0 for every length that
    reaches them, even when the keys are shorter than that length. *)
Theorem rtree_area_overlapping_stops_at_disjoint (srs : srs_ptr) (j : nat)
    (mbr_a mbr_b : list uchar) (mbr_len : Z) :
  (j <= segments mbr_len)%nat ->
  (16 * j <= length mbr_a)%nat -> (16 * j <= length mbr_b)%nat ->
  existsb disjoint_on (dims j mbr_a mbr_b) = true ->
  rtree_area_overlapping srs mbr_a mbr_b mbr_len = Returns Dbl.zero.
Proof.
  intros Hj Ha Hb Hex. unfold rtree_area_overlapping.
  rewrite overlap_loop_segments.
  rewrite (overlap_loop_disjoint j _ _ _ _ Hj Ha Hb Hex). reflexivity.
Qed.

(** Keys of one pair, disjoint on it, under a length of 40 bytes. *)
Lemma rtree_area_overlapping_stops_at_disjoint_witness :
  (1 <= segments 40)%nat
  /\ existsb disjoint_on
       (dims 1 (encode_key [(Dbl.of_Z 0, Dbl.of_Z 1)])
               (encode_key [(Dbl.of_Z 5, Dbl.of_Z 6)])) = true
  /\ rtree_area_overlapping None
       (encode_key [(Dbl.of_Z 0, Dbl.of_Z 1)]) (encode_key [(Dbl.of_Z 5, Dbl.of_Z 6)]) 40
     = Returns Dbl.zero.
Proof.
  assert (Hj : (1 <= segments 40)%nat) by (vm_compute; lia).
  assert (Ha : (16 * 1 <= length (encode_key [(Dbl.of_Z 0, Dbl.of_Z 1)]))%nat)
    by (vm_compute; lia).
  assert (Hb : (16 * 1 <= length (encode_key [(Dbl.of_Z 5, Dbl.of_Z 6)]))%nat)
    by (vm_compute; lia).
  assert (Hex : existsb disjoint_on
                  (dims 1 (encode_key [(Dbl.of_Z 0, Dbl.of_Z 1)])
                          (encode_key [(Dbl.of_Z 5, Dbl.of_Z 6)])) = true)
    by (vm_compute; reflexivity).
  split; [exact Hj | split; [exact Hex |]].
  exact (rtree_area_overlapping_stops_at_disjoint None 1 _ _ 40 Hj Ha Hb Hex).
Defined.

(** X4: for every length, [rtree_area_overlapping] on keys that hold
    ceil(mbr_len / 16) dimension pairs returns 0 when one of them is
    disjoint and the product of the overlap spans otherwise; the length
    need not be a multiple of 16. *)
Theorem rtree_area_overlapping_any_length (srs : srs_ptr) (mbr_a mbr_b : list uchar)
    (mbr_len : Z) :
  (16 * segments mbr_len <= length mbr_a)%nat ->
  (16 * segments mbr_len <= length mbr_b)%nat ->
  rtree_area_overlapping srs mbr_a mbr_b mbr_len
  = Returns (overlapArea (dims (segments mbr_len) mbr_a mbr_b)).
Proof.
  intros Ha Hb. rewrite <- (area_overlapping_dims srs _ _ _ Ha Hb).
  unfold rtree_area_overlapping. rewrite overlap_loop_segments. reflexivity.
Qed.

(** A length of 20 bytes is served as two dimension pairs. *)
Lemma rtree_area_overlapping_any_length_witness :
  (16 * segments 20 <= length (square_key 0 10))%nat
  /\ (16 * segments 20 <= length (square_key 5 15))%nat
  /\ rtree_area_overlapping None (square_key 0 10) (square_key 5 15) 20
     = Returns (Dbl.of_Z 25).
Proof.
  assert (Ha : (16 * segments 20 <= length (square_key 0 10))%nat) by (vm_compute; lia).
  assert (Hb : (16 * segments 20 <= length (square_key 5 15))%nat) by (vm_compute; lia).
  split; [exact Ha | split; [exact Hb |]].
  rewrite (rtree_area_overlapping_any_length None _ _ 20 Ha Hb).
  vm_compute. reflexivity.
Defined.

End RawKeyLengths.


Section RawKeyInside.

Import RawKey RawKeySpec RawKeyFacts.

(** Where [B]'s interval lies inside [A]'s, the union span is [A]'s span and
    so is what the dimension contributes to the compensation accumulator. *)
Lemma inside_spans (d : dim) :
  b_inside_a d = true -> union_span d = a_span d /\ compensation_factor d = a_span d.
Proof.
  unfold b_inside_a. intros H. apply andb_true_iff in H as [Hlo Hhi].
  assert (U : union_span d = a_span d).
  { unfold union_span, a_span, Dbl.std_max, Dbl.std_min.
    rewrite (DblFacts.leb_not_ltb _ _ Hhi), (DblFacts.leb_not_ltb _ _ Hlo). reflexivity. }
  split; [exact U |].
  unfold compensation_factor, b_exceeds.
  rewrite (DblFacts.leb_not_ltb _ _ Hlo), (DblFacts.leb_not_gtb _ _ Hhi). exact U.
Qed.

Lemma inside_products (ds : list dim) :
  forallb b_inside_a ds = true -> forallb nonzero_span ds = true ->
  aArea ds = product a_span ds
  /\ unionArea ds = product a_span ds
  /\ (Dbl.isnan (product a_span ds) = false -> compensation ds = product a_span ds).
Proof.
  induction ds as [| d ds IH] using rev_ind; intros Hin Hnz.
  - repeat split.
  - rewrite forallb_app in Hin, Hnz.
    apply andb_true_iff in Hin as [Hin Hd]. apply andb_true_iff in Hnz as [Hnz Hnd].
    cbn [forallb] in Hd, Hnd. rewrite andb_true_r in Hd, Hnd.
    destruct (IH Hin Hnz) as (HA & HU & HC).
    destruct (inside_spans d Hd) as [SU SC].
    assert (W : weighted (a_span d) = a_span d).
    { unfold nonzero_span in Hnd. unfold weighted.
      destruct (a_span d == Dbl.zero); [discriminate | reflexivity]. }
    assert (EA : aArea (ds ++ [d]) = product a_span (ds ++ [d])).
    { unfold aArea in *. rewrite !product_snoc, HA, W. reflexivity. }
    assert (EU : unionArea (ds ++ [d]) = product a_span (ds ++ [d])).
    { unfold unionArea in *. rewrite !product_snoc, HU, SU, W. reflexivity. }
    split; [exact EA | split; [exact EU |]].
    intros N. rewrite compensation_snoc, EA, EU, (DblFacts.eqb_refl _ N), SC.
    rewrite product_snoc in *.
    rewrite HC; [reflexivity |]. exact (DblFacts.mul_not_nan_l _ _ N).
Qed.

(** X5: when on every dimension [B]'s interval lies inside [A]'s (amin <=
    bmin and bmax <= amax) and no span of [A] is zero, the delta returned
    by [rtree_area_increase] is the product [P] of [A]'s spans, which is
    also the union area, except that it is 0 when [P] is exactly 1.0 and
    NaN when [P] is NaN. *)
Theorem rtree_area_increase_inside (srs : srs_ptr) (n : nat) (mbr_a mbr_b : list uchar) :
  (16 * n <= length mbr_a)%nat -> (16 * n <= length mbr_b)%nat ->
  forallb b_inside_a (dims n mbr_a mbr_b) = true ->
  forallb nonzero_span (dims n mbr_a mbr_b) = true ->
  rtree_area_increase srs mbr_a mbr_b (16 * Z.of_nat n)
  = Returns
      (if Dbl.isnan (product a_span (dims n mbr_a mbr_b)) then Dbl.nan
       else if product a_span (dims n mbr_a mbr_b) == Dbl.one then Dbl.zero
       else product a_span (dims n mbr_a mbr_b),
       product a_span (dims n mbr_a mbr_b)).
Proof.
  intros Ha Hb Hin Hnz.
  rewrite (area_increase_dims srs n mbr_a mbr_b Ha Hb). unfold delta.
  destruct (inside_products _ Hin Hnz) as (HA & HU & HC).
  rewrite HA, HU.
  destruct (Dbl.isnan (product a_span (dims n mbr_a mbr_b))) eqn:N.
  - rewrite (DblFacts.eqb_self_nan _ N). cbn [andb].
    destruct (product a_span (dims n mbr_a mbr_b)); try discriminate. reflexivity.
  - rewrite (DblFacts.eqb_refl _ N), (HC eq_refl). cbn [andb]. unfold Dbl.neb.
    destruct (product a_span (dims n mbr_a mbr_b) == Dbl.one) eqn:E; cbn [negb].
    + rewrite (DblFacts.eqb_one _ E). vm_compute. reflexivity.
    + reflexivity.
Qed.

(** B = [5,10] x [5,10] inside A = [0,15] x [0,15]: the increase is the
    area of A, 225. *)
Lemma rtree_area_increase_inside_witness :
  forallb b_inside_a (dims 2 (square_key 0 15) (square_key 5 10)) = true
  /\ forallb nonzero_span (dims 2 (square_key 0 15) (square_key 5 10)) = true
  /\ rtree_area_increase None (square_key 0 15) (square_key 5 10) 32
     = Returns (Dbl.of_Z 225, Dbl.of_Z 225).
Proof.
  assert (Ha : (16 * 2 <= length (square_key 0 15))%nat) by (vm_compute; lia).
  assert (Hb : (16 * 2 <= length (square_key 5 10))%nat) by (vm_compute; lia).
  assert (Hin : forallb b_inside_a (dims 2 (square_key 0 15) (square_key 5 10)) = true)
    by (vm_compute; reflexivity).
  assert (Hnz : forallb nonzero_span (dims 2 (square_key 0 15) (square_key 5 10)) = true)
    by (vm_compute; reflexivity).
  split; [exact Hin | split; [exact Hnz |]].
  pose proof (rtree_area_increase_inside None 2 _ _ Ha Hb Hin Hnz) as H.
  change (16 * Z.of_nat 2)%Z with 32%Z in H. rewrite H.
  vm_compute. reflexivity.
Defined.

End RawKeyInside.


(** * Further properties of the predicates *)

Section MorePredicates.

(** X6: [mbr_disjoint_cmp] never answers true: a release build returns
    false for every pair of rectangles, any build returns false or stops on
    the assertion of [mbr_intersect_cmp], and on rectangles that satisfy
    the invariant every build returns false. *)
Theorem mbr_disjoint_cmp_never_true (bld : build) (srs : srs_ptr) (a b : rtr_mbr_t) :
  mbr_disjoint_cmp Release srs a b = Returns false
  /\ (mbr_disjoint_cmp bld srs a b = Returns false
      \/ mbr_disjoint_cmp bld srs a b = AssertionFailure)
  /\ (valid_mbr a = true -> valid_mbr b = true ->
      mbr_disjoint_cmp bld srs a b = Returns false).
Proof.
  split; [reflexivity | split].
  - unfold mbr_disjoint_cmp, mbr_intersect_cmp.
    destruct (DBUG_ASSERT bld _) eqn:D; cbn [bind]; [left | right | ]; try reflexivity.
    destruct bld; cbn [DBUG_ASSERT] in D; [| discriminate].
    destruct (_ && _) in D; discriminate.
  - intros Ha Hb. unfold mbr_disjoint_cmp.
    rewrite (mbr_intersect_cmp_valid bld srs a b Ha Hb). reflexivity.
Qed.

(** Two rectangles far apart are valid, and not disjoint. *)
Lemma mbr_disjoint_cmp_never_true_witness :
  valid_mbr (Mbr (Dbl.of_Z 0) (Dbl.of_Z 1) (Dbl.of_Z 0) (Dbl.of_Z 1)) = true
  /\ valid_mbr (Mbr (Dbl.of_Z 50) (Dbl.of_Z 60) (Dbl.of_Z 50) (Dbl.of_Z 60)) = true
  /\ mbr_disjoint_cmp Debug None
       (Mbr (Dbl.of_Z 0) (Dbl.of_Z 1) (Dbl.of_Z 0) (Dbl.of_Z 1))
       (Mbr (Dbl.of_Z 50) (Dbl.of_Z 60) (Dbl.of_Z 50) (Dbl.of_Z 60)) = Returns false.
Proof.
  assert (Ha : valid_mbr (Mbr (Dbl.of_Z 0) (Dbl.of_Z 1) (Dbl.of_Z 0) (Dbl.of_Z 1)) = true)
    by (vm_compute; reflexivity).
  assert (Hb : valid_mbr (Mbr (Dbl.of_Z 50) (Dbl.of_Z 60) (Dbl.of_Z 50) (Dbl.of_Z 60)) = true)
    by (vm_compute; reflexivity).
  split; [exact Ha | split; [exact Hb |]].
  destruct (mbr_disjoint_cmp_never_true Debug None
              (Mbr (Dbl.of_Z 0) (Dbl.of_Z 1) (Dbl.of_Z 0) (Dbl.of_Z 1))
              (Mbr (Dbl.of_Z 50) (Dbl.of_Z 60) (Dbl.of_Z 50) (Dbl.of_Z 60)))
    as (_ & _ & H).
  exact (H Ha Hb).
Defined.

(** What [mbr_within_cmp] returns when covered-by answers. *)
Lemma mbr_within_cmp_answer (lib : Gis) (bld : build) (srs : srs_ptr)
    (a b : rtr_mbr_t) (r : bool) :
  covered_by_normalized lib srs a b = Some r ->
  mbr_within_cmp lib bld srs a b
  = Returns (if reversed_on_both_axes a && negb (same_stored_coordinates a b)
             then negb r else r).
Proof.
  intros Hr.
  unfold covered_by_normalized, model_of, model_box, normalized, null_or_cartesian,
    major_or_zero, minor_or_zero, to_model in Hr.
  unfold mbr_within_cmp, reversed_on_both_axes, same_stored_coordinates.
  destruct srs as [s |]; cbn [xmin xmax ymin ymax] in Hr.
  - destruct (is_cartesian s) eqn:C.
    + rewrite Hr. reflexivity.
    + rewrite (geographic_when_not_cartesian s C), dbug_assert_true. cbn [bind].
      rewrite Hr. reflexivity.
  - rewrite Hr. reflexivity.
Qed.

Lemma ltb_swap (u v : double) :
  (u < v) = true -> (v < u) = false /\ (v > u) = true /\ (u > v) = false.
Proof.
  unfold Dbl.ltb, SFltb, Dbl.gtb.
  destruct (SFcompare u v) as [c |] eqn:E; [| discriminate].
  rewrite (DblFacts.compare_swap _ _ _ E).
  destruct c; intros H; try discriminate. repeat split.
Qed.

(** A strictly ordered rectangle is its own normal form, and the normal
    form of the rectangle with its bounds exchanged. *)
Lemma strictly_ordered_normalized (a : rtr_mbr_t) :
  strictly_ordered a = true ->
  normalized a = a
  /\ normalized (swapped a) = a
  /\ reversed_on_both_axes a = false
  /\ reversed_on_both_axes (swapped a) = true.
Proof.
  destruct a as [x0 x1 y0 y1]. unfold strictly_ordered. cbn [xmin xmax ymin ymax].
  intros H. apply andb_true_iff in H as [Hx Hy].
  destruct (ltb_swap _ _ Hx) as (X1 & X2 & X3).
  destruct (ltb_swap _ _ Hy) as (Y1 & Y2 & Y3).
  unfold normalized, swapped, reversed_on_both_axes, Dbl.std_min, Dbl.std_max.
  cbn [xmin xmax ymin ymax].
  rewrite Hx, Hy, X1, Y1, X2, Y2, X3. repeat split.
Qed.

(** X7: exchanging the two bounds of a strictly ordered rectangle [A] on
    both axes negates the answer of [mbr_within_cmp]: when covered-by
    answers [r] on the normalized boxes, [A] gets [r] and the exchanged
    rectangle gets the negation of [r], unless the exchanged rectangle
    equals [B] in all four stored coordinates, in which case it gets [r]
    too. *)
Theorem mbr_within_cmp_swapped (lib : Gis) (bld : build) (srs : srs_ptr)
    (a b : rtr_mbr_t) (r : bool) :
  strictly_ordered a = true ->
  covered_by_normalized lib srs a b = Some r ->
  mbr_within_cmp lib bld srs a b = Returns r
  /\ mbr_within_cmp lib bld srs (swapped a) b
     = Returns (if same_stored_coordinates (swapped a) b then r else negb r).
Proof.
  intros Hs Hr.
  destruct (strictly_ordered_normalized a Hs) as (N1 & N2 & R1 & R2).
  assert (Hr' : covered_by_normalized lib srs (swapped a) b = Some r).
  { unfold covered_by_normalized in *. rewrite N2. rewrite N1 in Hr. exact Hr. }
  rewrite (mbr_within_cmp_answer lib bld srs a b r Hr).
  rewrite (mbr_within_cmp_answer lib bld srs (swapped a) b r Hr').
  rewrite R1, R2. cbn [andb]. split; [reflexivity |].
  destruct (same_stored_coordinates (swapped a) b); reflexivity.
Qed.

(** A = [0,10] x [0,10] lies inside B = [0,20] x [0,20]; stored with its
    bounds exchanged it is reported as not within B. *)
Lemma mbr_within_cmp_swapped_witness :
  strictly_ordered (Mbr (Dbl.of_Z 0) (Dbl.of_Z 10) (Dbl.of_Z 0) (Dbl.of_Z 10)) = true
  /\ mbr_within_cmp (planar_gis empty_box) Debug None
       (Mbr (Dbl.of_Z 0) (Dbl.of_Z 10) (Dbl.of_Z 0) (Dbl.of_Z 10))
       (Mbr (Dbl.of_Z 0) (Dbl.of_Z 20) (Dbl.of_Z 0) (Dbl.of_Z 20)) = Returns true
  /\ mbr_within_cmp (planar_gis empty_box) Debug None
       (Mbr (Dbl.of_Z 10) (Dbl.of_Z 0) (Dbl.of_Z 10) (Dbl.of_Z 0))
       (Mbr (Dbl.of_Z 0) (Dbl.of_Z 20) (Dbl.of_Z 0) (Dbl.of_Z 20)) = Returns false.
Proof.
  assert (Hs : strictly_ordered
                 (Mbr (Dbl.of_Z 0) (Dbl.of_Z 10) (Dbl.of_Z 0) (Dbl.of_Z 10)) = true)
    by (vm_compute; reflexivity).
  assert (Hr : covered_by_normalized (planar_gis empty_box) None
                 (Mbr (Dbl.of_Z 0) (Dbl.of_Z 10) (Dbl.of_Z 0) (Dbl.of_Z 10))
                 (Mbr (Dbl.of_Z 0) (Dbl.of_Z 20) (Dbl.of_Z 0) (Dbl.of_Z 20)) = Some true)
    by (vm_compute; reflexivity).
  split; [exact Hs |].
  destruct (mbr_within_cmp_swapped (planar_gis empty_box) Debug None _ _ true Hs Hr)
    as [H1 H2].
  split; [exact H1 |].
  etransitivity; [exact H2 |]. vm_compute. reflexivity.
Defined.

(** X8: on rectangles that satisfy the invariant and that normalization
    leaves unchanged, containing is being within with the arguments
    exchanged: [mbr_contain_cmp(B, A)] and [mbr_within_cmp(A, B)] have the
    same outcome, thrown exceptions included. *)
Theorem mbr_contain_cmp_within (lib : Gis) (bld : build) (srs : srs_ptr)
    (a b : rtr_mbr_t) :
  valid_mbr a = true -> valid_mbr b = true ->
  normalized a = a -> normalized b = b ->
  mbr_contain_cmp lib bld srs b a = mbr_within_cmp lib bld srs a b.
Proof.
  destruct a as [ax0 ax1 ay0 ay1], b as [bx0 bx1 by0 by1].
  unfold valid_mbr, normalized. cbn [xmin xmax ymin ymax].
  intros Ha Hb Na Nb.
  injection Na as Na1 Na2 Na3 Na4. injection Nb as Nb1 Nb2 Nb3 Nb4.
  unfold mbr_contain_cmp, mbr_within_cmp, predicate_result, mbr_box, radian_mbr_box.
  cbn [xmin xmax ymin ymax].
  rewrite Ha, Hb, dbug_assert_true. cbn [bind].
  apply andb_true_iff in Ha as [Hax _].
  rewrite (DblFacts.leb_not_gtb _ _ Hax). cbn [andb].
  rewrite Na1, Na2, Na3, Na4, Nb1, Nb2, Nb3, Nb4.
  destruct srs as [s |]; [destruct (is_cartesian s) |]; reflexivity.
Qed.

(** A point and a square around it. *)
Lemma mbr_contain_cmp_within_witness :
  normalized (Mbr (Dbl.of_Z 3) (Dbl.of_Z 3) (Dbl.of_Z 4) (Dbl.of_Z 4))
  = Mbr (Dbl.of_Z 3) (Dbl.of_Z 3) (Dbl.of_Z 4) (Dbl.of_Z 4)
  /\ mbr_contain_cmp (planar_gis empty_box) Debug (Some radian_srs)
       (Mbr (Dbl.of_Z 0) (Dbl.of_Z 10) (Dbl.of_Z 0) (Dbl.of_Z 10))
       (Mbr (Dbl.of_Z 3) (Dbl.of_Z 3) (Dbl.of_Z 4) (Dbl.of_Z 4))
     = mbr_within_cmp (planar_gis empty_box) Debug (Some radian_srs)
         (Mbr (Dbl.of_Z 3) (Dbl.of_Z 3) (Dbl.of_Z 4) (Dbl.of_Z 4))
         (Mbr (Dbl.of_Z 0) (Dbl.of_Z 10) (Dbl.of_Z 0) (Dbl.of_Z 10))
  /\ mbr_within_cmp (planar_gis empty_box) Debug (Some radian_srs)
       (Mbr (Dbl.of_Z 3) (Dbl.of_Z 3) (Dbl.of_Z 4) (Dbl.of_Z 4))
       (Mbr (Dbl.of_Z 0) (Dbl.of_Z 10) (Dbl.of_Z 0) (Dbl.of_Z 10)) = Returns true.
Proof.
  assert (Na : normalized (Mbr (Dbl.of_Z 3) (Dbl.of_Z 3) (Dbl.of_Z 4) (Dbl.of_Z 4))
               = Mbr (Dbl.of_Z 3) (Dbl.of_Z 3) (Dbl.of_Z 4) (Dbl.of_Z 4))
    by (vm_compute; reflexivity).
  split; [exact Na | split; [| vm_compute; reflexivity]].
  apply mbr_contain_cmp_within; vm_compute; reflexivity.
Defined.



End MorePredicates.


(** * Further properties of merge, area and the handlers *)

Section MoreMerge.



(** X12: a Cartesian reference system and no reference system at all give
    the same join, the same join area and the same area: the merge and
    area functions take nothing from a projected system. *)
Theorem cartesian_srs_as_null (lib : Gis) (bld : build) (s : Spatial_reference_system)
    (a b : coords) (n_dim : Z) :
  is_cartesian s = true ->
  mbr_join lib bld (Some s) a b n_dim = mbr_join lib bld None a b n_dim
  /\ mbr_join_area lib bld (Some s) a b n_dim = mbr_join_area lib bld None a b n_dim
  /\ compute_area lib bld (Some s) a n_dim = compute_area lib bld None a n_dim.
Proof.
  intros C. unfold mbr_join, mbr_join_area, join_area_try, compute_area.
  rewrite C. repeat split.
Qed.

Lemma cartesian_srs_as_null_witness :
  is_cartesian projected_srs = true
  /\ mbr_join_area (planar_gis empty_box) Debug (Some projected_srs)
       (Coords (Dbl.of_Z 0) (Dbl.of_Z 10) (Dbl.of_Z 0) (Dbl.of_Z 10))
       (Coords (Dbl.of_Z 5) (Dbl.of_Z 15) (Dbl.of_Z 5) (Dbl.of_Z 15)) 2
     = mbr_join_area (planar_gis empty_box) Debug None
         (Coords (Dbl.of_Z 0) (Dbl.of_Z 10) (Dbl.of_Z 0) (Dbl.of_Z 10))
         (Coords (Dbl.of_Z 5) (Dbl.of_Z 15) (Dbl.of_Z 5) (Dbl.of_Z 15)) 2.
Proof.
  assert (C : is_cartesian projected_srs = true) by reflexivity.
  split; [exact C |].
  destruct (cartesian_srs_as_null (planar_gis empty_box) Debug projected_srs
              (Coords (Dbl.of_Z 0) (Dbl.of_Z 10) (Dbl.of_Z 0) (Dbl.of_Z 10))
              (Coords (Dbl.of_Z 5) (Dbl.of_Z 15) (Dbl.of_Z 5) (Dbl.of_Z 15)) 2 C)
    as (_ & H & _).
  exact H.
Defined.

(** A box survives the copy to a coordinate array and back. *)
Lemma box_of_coords_of_box (bx : box) : box_of_coords (coords_of_box bx) = bx.
Proof. destruct bx as [[x0 y0] [x1 y1]]. reflexivity. Qed.

(** X13: in the Cartesian model the join area is the area of the join,
    made finite: when [bg::expand] yields a box, [mbr_join] returns the
    coordinates of that box and [mbr_join_area] returns what [compute_area]
    returns on them, with the largest finite double in place of a NaN or an
    infinity. *)
Theorem mbr_join_area_is_area_of_join (lib : Gis) (bld : build) (srs : srs_ptr)
    (a b : coords) (bx : box) :
  null_or_cartesian srs = true ->
  expand lib cartesian (box_of_coords a) (box_of_coords b) = Some bx ->
  mbr_join lib bld srs a b 2 = Returns (coords_of_box bx)
  /\ mbr_join_area lib bld srs a b 2
     = (area <- compute_area lib bld srs (coords_of_box bx) 2 ;;
        Returns (finite_or_max_double area)).
Proof.
  intros C E.
  unfold mbr_join, mbr_join_area, join_area_try, compute_area, area_result,
    finite_or_max_double.
  change (2 =? 2)%Z with true. rewrite dbug_assert_true. cbn [bind].
  rewrite box_of_coords_of_box.
  assert (F : forall r : outcome double,
             (area <- r ;; Returns (if negb (Dbl.isfinite area) then Dbl.max_double
                                    else area))
             = (area <- r ;; Returns (if Dbl.isfinite area then area
                                      else Dbl.max_double))).
  { intros [area | |]; cbn [bind]; try reflexivity.
    destruct (Dbl.isfinite area); reflexivity. }
  destruct srs as [s |]; cbn [null_or_cartesian] in C; [rewrite C |];
    rewrite E; split; try reflexivity; apply F.
Qed.

(** The scenario of the specification: the join of [0,10] x [0,10] and
    [5,15] x [5,15] is [0,15] x [0,15], of area 225. *)
Lemma mbr_join_area_is_area_of_join_witness :
  mbr_join (planar_gis empty_box) Debug None
    (Coords (Dbl.of_Z 0) (Dbl.of_Z 10) (Dbl.of_Z 0) (Dbl.of_Z 10))
    (Coords (Dbl.of_Z 5) (Dbl.of_Z 15) (Dbl.of_Z 5) (Dbl.of_Z 15)) 2
  = Returns (Coords (Dbl.of_Z 0) (Dbl.of_Z 15) (Dbl.of_Z 0) (Dbl.of_Z 15))
  /\ mbr_join_area (planar_gis empty_box) Debug None
       (Coords (Dbl.of_Z 0) (Dbl.of_Z 10) (Dbl.of_Z 0) (Dbl.of_Z 10))
       (Coords (Dbl.of_Z 5) (Dbl.of_Z 15) (Dbl.of_Z 5) (Dbl.of_Z 15)) 2
     = Returns (Dbl.of_Z 225).
Proof.
  destruct (mbr_join_area_is_area_of_join (planar_gis empty_box) Debug None
              (Coords (Dbl.of_Z 0) (Dbl.of_Z 10) (Dbl.of_Z 0) (Dbl.of_Z 10))
              (Coords (Dbl.of_Z 5) (Dbl.of_Z 15) (Dbl.of_Z 5) (Dbl.of_Z 15))
              _ eq_refl eq_refl) as [H1 H2].
  split.
  - etransitivity; [exact H1 |]. vm_compute. reflexivity.
  - etransitivity; [exact H2 |]. vm_compute. reflexivity.
Defined.

End MoreMerge.


(** * Further properties of the stored record, the lookup and the quoting length *)

Section MoreStore.

Lemma uint4korr_returns (p : list uchar) (v : Z) :
  uint4korr p = Returns v -> v = le_combine (firstn 4 p) /\ (4 <= length p)%nat.
Proof.
  unfold uint4korr. destruct (Nat.ltb_spec (length p) 4) as [S | S]; [discriminate |].
  intros H. injection H as <-. split; [reflexivity | exact S].
Qed.

(** The two ways [get_mbr_from_store] returns. *)
Lemma get_mbr_from_store_returns (lib : Gis) (bld : build) (srs : srs_ptr)
    (store : list uchar) (size n_dims : Z) (srid_wanted : bool) (r : store_result) :
  get_mbr_from_store lib bld srs store size n_dims srid_wanted = Returns r ->
  srid_out r = (if srid_wanted then Some (le_combine (firstn 4 store)) else None)
  /\ ((status r = (-1)%Z /\ mbr_out r = None)
      \/ (status r = 0%Z
          /\ exists (g : Geometry lib) (mbr m : coords),
               parse_wkb lib srs (advance 4 store) ((size - 4) mod 2 ^ 64)%Z true
               = Some (Some g)
               /\ envelope_coords lib srs g = Some mbr
               /\ finish_mbr bld mbr = Returns m
               /\ mbr_out r = Some m)).
Proof.
  unfold get_mbr_from_store, caught. intros H.
  destruct (DBUG_ASSERT bld (n_dims =? 2)%Z); cbn [bind] in H; try discriminate.
  match type of H with bind ?m _ = _ => destruct m end; cbn [bind] in H; try discriminate.
  assert (S : forall srid,
             (if srid_wanted then v <- uint4korr store ;; Returns (Some v)
              else Returns None) = Returns srid ->
             srid = (if srid_wanted then Some (le_combine (firstn 4 store)) else None)).
  { intros srid. destruct srid_wanted.
    - destruct (uint4korr store) as [v | |] eqn:U; cbn [bind]; try discriminate.
      intros E. injection E as <-. destruct (uint4korr_returns _ _ U) as [-> _].
      reflexivity.
    - intros E. injection E as <-. reflexivity. }
  match type of H with bind ?m _ = _ => destruct m as [srid | |] eqn:R end;
    cbn [bind] in H; try discriminate.
  specialize (S srid eq_refl). clear R. rename S into R.
  destruct (parse_wkb lib srs (advance 4 store) ((size - 4) mod 2 ^ 64)%Z true)
    as [[g |] |] eqn:P.
  - match type of H with bind ?m _ = _ => destruct m end; cbn [bind] in H; try discriminate.
    destruct (envelope_coords lib srs g) as [mbr |] eqn:E.
    + destruct (finish_mbr bld mbr) as [m | |] eqn:F; cbn [bind] in H; try discriminate.
      injection H as <-. split; [exact R | right].
      split; [reflexivity |]. exists g, mbr, m. repeat split; assumption || reflexivity.
    + destruct (DBUG_ASSERT bld false); cbn [bind] in H; try discriminate.
      injection H as <-. split; [exact R | left; split; reflexivity].
  - injection H as <-. split; [exact R | left; split; reflexivity].
  - destruct (DBUG_ASSERT bld false); cbn [bind] in H; try discriminate.
    injection H as <-. split; [exact R | left; split; reflexivity].
Qed.

(** X14: whenever [get_mbr_from_store] returns, the status is 0 or -1; a
    rectangle is stored through [mbr] exactly when the status is 0, so a
    failure leaves no partial rectangle; and the identifier read from the
    first four bytes is stored through a non-null [srid] in both cases,
    failure included. *)
Theorem get_mbr_from_store_status (lib : Gis) (bld : build) (srs : srs_ptr)
    (store : list uchar) (size n_dims : Z) (srid_wanted : bool) (r : store_result) :
  get_mbr_from_store lib bld srs store size n_dims srid_wanted = Returns r ->
  ((status r = 0%Z /\ exists m, mbr_out r = Some m)
   \/ (status r = (-1)%Z /\ mbr_out r = None))
  /\ srid_out r = (if srid_wanted then Some (le_combine (firstn 4 store)) else None).
Proof.
  intros H. destruct (get_mbr_from_store_returns _ _ _ _ _ _ _ _ H) as [S [F | O]].
  - split; [right; exact F | exact S].
  - destruct O as (St & g & mbr & m & _ & _ & _ & M).
    split; [left; split; [exact St | exists m; exact M] | exact S].
Qed.

(** A payload in which the parser finds no geometry: status -1, nothing
    stored through [mbr], the identifier 4326 stored through [srid]. *)
Lemma get_mbr_from_store_status_witness :
  get_mbr_from_store unparsable_gis Debug None sample_store 12 2 true
  = Returns (StoreResult (-1) None (Some 4326%Z))
  /\ Some 4326%Z = Some (le_combine (firstn 4 sample_store)).
Proof.
  assert (H : get_mbr_from_store unparsable_gis Debug None sample_store 12 2 true
              = Returns (StoreResult (-1) None (Some 4326%Z)))
    by (vm_compute; reflexivity).
  split; [exact H |].
  destruct (get_mbr_from_store_status _ _ _ _ _ _ _ _ H) as [_ S].
  exact S.
Defined.

(** X15: the rectangle that [get_mbr_from_store] stores never has a NaN
    xmin, in any build; in a debug build it has no NaN coordinate at
    all. *)
Theorem get_mbr_from_store_no_nan_xmin (lib : Gis) (bld : build) (srs : srs_ptr)
    (store : list uchar) (size n_dims : Z) (srid_wanted : bool) (r : store_result)
    (m : coords) :
  get_mbr_from_store lib bld srs store size n_dims srid_wanted = Returns r ->
  mbr_out r = Some m ->
  Dbl.isnan (c0 m) = false /\ (bld = Debug -> some_nan m = false).
Proof.
  intros H M. destruct (get_mbr_from_store_returns _ _ _ _ _ _ _ _ H) as [_ [F | O]].
  - destruct F as [_ F]. rewrite F in M. discriminate.
  - destruct O as (_ & g & mbr & m' & _ & _ & F & M').
    rewrite M' in M. injection M as ->.
    destruct (finish_mbr_returns _ _ _ F) as [E D].
    split.
    + rewrite E. destruct (Dbl.isnan (c0 mbr)) eqn:N; [reflexivity | exact N].
    + intros B. specialize (D B). unfold ordered in D.
      apply andb_true_iff in D as [Dx Dy].
      destruct (DblFacts.leb_not_nan _ _ Dx) as [N0 N1].
      destruct (DblFacts.leb_not_nan _ _ Dy) as [N2 N3].
      unfold some_nan. rewrite N0, N1, N2, N3. reflexivity.
Qed.

(** An envelope with only xmin NaN, in a release build. *)
Lemma get_mbr_from_store_no_nan_xmin_witness :
  get_mbr_from_store (planar_gis nan_xmin_box) Release None sample_store 12 2 false
  = Returns (StoreResult 0 (Some full_domain) None)
  /\ Dbl.isnan (c0 full_domain) = false.
Proof.
  assert (H : get_mbr_from_store (planar_gis nan_xmin_box) Release None
                sample_store 12 2 false
              = Returns (StoreResult 0 (Some full_domain) None))
    by (vm_compute; reflexivity).
  split; [exact H |].
  exact (proj1 (get_mbr_from_store_no_nan_xmin _ _ _ _ _ _ _ _ full_domain H eq_refl)).
Defined.

(** X16: a record shorter than the four bytes of its identifier cannot be
    served when the identifier is asked for: the call reads outside the
    record before the parser is reached, whatever the library. *)
Theorem get_mbr_from_store_short_record (lib : Gis) (bld : build) (srs : srs_ptr)
    (store : list uchar) (size n_dims : Z) :
  (length store < 4)%nat ->
  bld = Release \/ n_dims = 2%Z ->
  get_mbr_from_store lib bld srs store size n_dims true = OutOfBounds.
Proof.
  intros S B. unfold get_mbr_from_store.
  assert (U : uint4korr store = OutOfBounds).
  { unfold uint4korr. rewrite (proj2 (Nat.ltb_lt _ _) S). reflexivity. }
  assert (A : DBUG_ASSERT bld (n_dims =? 2)%Z = Returns tt).
  { destruct B as [-> | ->]; [reflexivity | apply dbug_assert_true]. }
  rewrite A, U. cbn [bind].
  destruct bld; [destruct srs |]; reflexivity.
Qed.

Lemma get_mbr_from_store_short_record_witness :
  (length (firstn 3 sample_store) < 4)%nat
  /\ get_mbr_from_store (planar_gis empty_box) Debug (Some radian_srs)
       (firstn 3 sample_store) 3 2 true = OutOfBounds.
Proof.
  assert (S : (length (firstn 3 sample_store) < 4)%nat) by (vm_compute; lia).
  split; [exact S |].
  exact (get_mbr_from_store_short_record (planar_gis empty_box) Debug (Some radian_srs)
           (firstn 3 sample_store) 3 2 S (or_intror eq_refl)).
Defined.

(** X17: [fetch_srs] yields a reference system exactly when the identifier
    is not 0 and the dictionary lookup succeeds and finds one, and then it
    yields the one found; for the identifier 0 the dictionary is not
    consulted. *)
Theorem fetch_srs_found (acquire : Z -> bool * srs_ptr) (srid : Z)
    (s : Spatial_reference_system) :
  (fetch_srs acquire srid = Some s
   <-> (srid <> 0%Z /\ acquire srid = (false, Some s)))
  /\ fetch_srs acquire 0 = None.
Proof.
  split; [| reflexivity].
  unfold fetch_srs. destruct (Z.eqb_spec srid 0) as [E | E].
  - split; [discriminate | intros [N _]; contradiction].
  - destruct (acquire srid) as [failed [found |]]; destruct failed;
      split; try discriminate; try (intros [_ H]; discriminate H).
    + intros H. injection H as ->. split; [exact E | reflexivity].
    + intros [_ H]. injection H as ->. reflexivity.
Qed.

Lemma fetch_srs_found_witness :
  fetch_srs sample_acquire 4326 = Some radian_srs
  /\ fetch_srs sample_acquire 1 = None
  /\ fetch_srs sample_acquire 0 = None.
Proof.
  split; [| split; reflexivity].
  apply (proj1 (fetch_srs_found sample_acquire 4326 radian_srs)).
  split; [discriminate | reflexivity].
Defined.

(** X18: the length that JSON_QUOTE declares, 6 * max_length + 2 computed
    in 32 bits, is the worst-case length of the quoted string only for
    arguments of at most 715827882 characters; for every longer argument
    the sum wraps and the declared length is smaller than it. *)
Theorem json_quote_max_char_length_wraps (max_length : Z) :
  (0 <= max_length < 2 ^ 32)%Z ->
  (0 <= json_quote_max_char_length max_length < 2 ^ 32)%Z
  /\ (max_length <= 715827882 ->
      json_quote_max_char_length max_length = 6 * max_length + 2)%Z
  /\ (715827882 < max_length ->
      json_quote_max_char_length max_length < 6 * max_length + 2)%Z.
Proof.
  intros R. unfold json_quote_max_char_length.
  pose proof (Z.mod_pos_bound (6 * max_length + 2) (2 ^ 32) ltac:(lia)) as B.
  split; [exact B | split].
  - intros S. apply Z.mod_small. lia.
  - intros L. lia.
Qed.

Lemma json_quote_max_char_length_wraps_witness :
  (0 <= 715827883 < 2 ^ 32)%Z
  /\ (715827882 < 715827883)%Z
  /\ (json_quote_max_char_length 715827883 < 6 * 715827883 + 2)%Z
  /\ json_quote_max_char_length 715827883 = 4%Z.
Proof.
  assert (R : (0 <= 715827883 < 2 ^ 32)%Z) by lia.
  assert (L : (715827882 < 715827883)%Z) by lia.
  split; [exact R | split; [exact L | split; [| reflexivity]]].
  destruct (json_quote_max_char_length_wraps 715827883 R) as (_ & _ & W).
  exact (W L).
Defined.

End MoreStore.
